(** * The ttrpc binding generator (protoc-gen-go-ttrpc), embedded in Rocq

    The generator walks a parsed protobuf service and issues an ordered
    sequence of [P] calls on a [protogen.GeneratedFile].  Every [P] call
    prints its operands one after the other and ends the line.  The
    embedding keeps each call with its operands (a [line] is the operand
    list of one call), so that the emitted Go text is [Content] of the
    call sequence and statements about the generated code can look at
    operands as well as at text. *)

From Stdlib Require Import String Ascii List Bool Arith Lia Permutation.
Import ListNotations.
Open Scope list_scope.
Open Scope string_scope.

(** ** The protogen data the generator reads *)

Module GoIdent.
Record t : Type := mk { GoName : string; GoImportPath : string }.
End GoIdent.

Module Message.
Record t : Type := mk { GoIdent : GoIdent.t }.
End Message.

Module MethodDesc.
(** protoreflect.MethodDescriptor: the name as written in the .proto file
    and the two streaming flags. *)
Record t : Type := mk {
  Name : string;
  IsStreamingClient : bool;
  IsStreamingServer : bool
}.
End MethodDesc.

Module Method.
(** protogen.Method.  [GoName] is the Go identifier protogen derived from
    [Desc.Name] (its camel-cased form); the generator reads both fields. *)
Record t : Type := mk {
  GoName : string;
  Desc : MethodDesc.t;
  Input : Message.t;
  Output : Message.t
}.
End Method.

Module ServiceDesc.
Record t : Type := mk { FullName : string }.
End ServiceDesc.

Module Service.
Record t : Type := mk {
  GoName : string;
  Desc : ServiceDesc.t;
  Methods : list Method.t
}.
End Service.

(** ** Strings *)

(** The Go double-quote character, as a one-character string. *)
Definition dq : string := String (ascii_of_nat 34) EmptyString.

(** strings.ToLower on the ASCII range (protobuf and Go identifiers are
    ASCII): 'A'..'Z' are moved to 'a'..'z', every other byte is kept. *)
Definition lowerAscii (c : ascii) : ascii :=
  let n := nat_of_ascii c in
  if Nat.leb 65 n && Nat.leb n 90 then ascii_of_nat (n + 32) else c.

Fixpoint ToLower (s : string) : string :=
  match s with
  | EmptyString => EmptyString
  | String c s' => String (lowerAscii c) (ToLower s')
  end.

(** Go slices [s[:1]] and [s[1:]] of a string. *)
Definition slice_to_1 (s : string) : string := substring 0 1 s.
Definition slice_from_1 (s : string) : string :=
  substring 1 (String.length s - 1) s.

(** ** The output file *)

(** An operand of [P]: a string, or a [GoIdent] that [P] prints through
    [QualifiedGoIdent]. *)
Inductive val : Type :=
| Str (s : string)
| Ident (i : GoIdent.t).

Definition line : Type := list val.

(** protogen.GeneratedFile as the generator sees it: the name resolver
    [QualifiedGoIdent] supplied by the output writer, taken as a function
    of the identifier (the import it records on the side does not show in
    the printed text).  The text buffer is the sequence of [P] calls the
    generator returns. *)
Record GeneratedFile : Type := mkFile {
  QualifiedGoIdent : GoIdent.t -> string
}.

(** One call [p.P(v...)] appends one line. *)
Definition P (v : list val) : list line := [v].

(** Statements that print one after the other. *)
Notation "a ;; b" := (@app line a b) (at level 61, right associativity).

Definition printVal (out : GeneratedFile) (v : val) : string :=
  match v with
  | Str s => s
  | Ident i => QualifiedGoIdent out i
  end.

Fixpoint printLine (out : GeneratedFile) (l : line) : string :=
  match l with
  | [] => EmptyString
  | [v] => printVal out v
  | v :: l' => printVal out v ++ printLine out l'
  end.

(** The text of the buffer, line by line. *)
Definition Content (out : GeneratedFile) (p : list line) : list string :=
  map (printLine out) p.

(** ** The generator *)

Record idents : Type := mkIdents {
  context : string;
  server : string;
  client : string;
  method : string;
  stream : string;
  serviceDesc : string;
  streamDesc : string;
  streamServerIdent : GoIdent.t;
  streamClientIdent : GoIdent.t;
  streamServer : string;
  streamClient : string
}.

Record generator : Type := mkGen {
  out : GeneratedFile;
  ident : idents
}.

Definition ttrpcPath : string := "github.com/containerd/ttrpc".

Definition newGenerator (out : GeneratedFile) : generator :=
  let streamServerIdent := GoIdent.mk "StreamServer" ttrpcPath in
  let streamClientIdent := GoIdent.mk "ClientStream" ttrpcPath in
  mkGen out
    (mkIdents
       (QualifiedGoIdent out (GoIdent.mk "Context" "context"))
       (QualifiedGoIdent out (GoIdent.mk "Server" ttrpcPath))
       (QualifiedGoIdent out (GoIdent.mk "Client" ttrpcPath))
       (QualifiedGoIdent out (GoIdent.mk "Method" ttrpcPath))
       (QualifiedGoIdent out (GoIdent.mk "Stream" ttrpcPath))
       (QualifiedGoIdent out (GoIdent.mk "ServiceDesc" ttrpcPath))
       (QualifiedGoIdent out (GoIdent.mk "StreamDesc" ttrpcPath))
       streamServerIdent
       streamClientIdent
       (QualifiedGoIdent out streamServerIdent)
       (QualifiedGoIdent out streamClientIdent)).

(** Shorthands for what the generator reads off a method. *)
Definition streamingClient (m : Method.t) : bool :=
  MethodDesc.IsStreamingClient (Method.Desc m).
Definition streamingServer (m : Method.t) : bool :=
  MethodDesc.IsStreamingServer (Method.Desc m).
Definition inputIdent (m : Method.t) : GoIdent.t :=
  Message.GoIdent (Method.Input m).
Definition outputIdent (m : Method.t) : GoIdent.t :=
  Message.GoIdent (Method.Output m).

(** The test [IsStreamingClient() || IsStreamingServer()] of genService. *)
Definition isStream (m : Method.t) : bool :=
  streamingClient m || streamingServer m.

Section GenService.

Variable gen : generator.
Variable service : Service.t.

Let p_QualifiedGoIdent := QualifiedGoIdent (out gen).
Let ctx := context (ident gen).

(** The strings [sendArgs] and [retArgs] of the service-interface loop. *)
Definition interfaceArgs (m : Method.t) : string * string :=
  if streamingClient m || streamingServer m then
    let sendArgs := Service.GoName service ++ "_" ++ Method.GoName m ++ "Server" in
    let sendArgs :=
      if negb (streamingClient m)
      then "*" ++ p_QualifiedGoIdent (inputIdent m) ++ ", " ++ sendArgs
      else sendArgs in
    let retArgs :=
      if streamingServer m then "error"
      else "(*" ++ p_QualifiedGoIdent (outputIdent m) ++ ", error)" in
    (sendArgs, retArgs)
  else
    ("*" ++ p_QualifiedGoIdent (inputIdent m),
     "(*" ++ p_QualifiedGoIdent (outputIdent m) ++ ", error)").

(** The line printed for one method of the service interface. *)
Definition interfaceLine (m : Method.t) : list line :=
  let '(sendArgs, retArgs) := interfaceArgs m in
  P [Str (Method.GoName m); Str "("; Str ctx; Str ", "; Str sendArgs;
     Str ") "; Str retArgs].

(** One iteration of the loop over [service.Methods] that prints the
    service interface and sorts the method into [streams] or [methods].
    The state is the buffer and the two slices. *)
Definition interfaceStep
    (st : list line * list Method.t * list Method.t) (m : Method.t)
    : list line * list Method.t * list Method.t :=
  let '(p, methods, streams) := st in
  if streamingClient m || streamingServer m
  then (p ;; interfaceLine m, methods, (streams ++ [m])%list)
  else (p ;; interfaceLine m, (methods ++ [m])%list, streams).

(** [structName] of the server-side wrapper. *)
Definition serverStructName (m : Method.t) : string :=
  ToLower (Service.GoName service) ++ Method.GoName m ++ "Server".

(** Body of the loop over [streams]: the server-stream interface, the
    wrapper struct and its methods. *)
Definition serverStream (m : Method.t) : list line :=
  let structName := serverStructName m in
  P [Str "type "; Str (Service.GoName service); Str "_";
     Str (Method.GoName m); Str "Server interface {"] ;;
  (if streamingServer m
   then P [Str "Send(*"; Ident (outputIdent m); Str ") error"] else []) ;;
  (if streamingClient m
   then P [Str "Recv() (*"; Ident (inputIdent m); Str ", error)"] else []) ;;
  P [Str (streamServer (ident gen))] ;;
  P [Str "}"] ;;
  P [] ;;
  P [Str "type "; Str structName; Str " struct {"] ;;
  P [Str (streamServer (ident gen))] ;;
  P [Str "}"] ;;
  P [] ;;
  (if streamingServer m
   then P [Str "func (x *"; Str structName; Str ") Send(m *";
           Ident (outputIdent m); Str ") error {"] ;;
        P [Str "return x.StreamServer.SendMsg(m)"] ;;
        P [Str "}"] ;;
        P []
   else []) ;;
  (if streamingClient m
   then P [Str "func (x *"; Str structName; Str ") Recv() (*";
           Ident (inputIdent m); Str ", error) {"] ;;
        P [Str "m := new("; Ident (inputIdent m); Str ")"] ;;
        P [Str "if err := x.StreamServer.RecvMsg(m); err != nil {"] ;;
        P [Str "return nil, err"] ;;
        P [Str "}"] ;;
        P [Str "return m, nil"] ;;
        P [Str "}"] ;;
        P []
   else []).

(** The entry of the [Methods] map printed for one unary method. *)
Definition methodEntry (m : Method.t) : list line :=
  P [Str dq; Str (Method.GoName m); Str (dq ++ ": func(ctx "); Str ctx;
     Str ", unmarshal func(interface{}) error)(interface{}, error){"] ;;
  P [Str "var req "; Ident (inputIdent m)] ;;
  P [Str "if err := unmarshal(&req); err != nil {"] ;;
  P [Str "return nil, err"] ;;
  P [Str "}"] ;;
  P [Str "return svc."; Str (Method.GoName m); Str "(ctx, &req)"] ;;
  P [Str "},"].

(** The entry of the [Streams] map printed for one streaming method. *)
Definition streamEntry (m : Method.t) : list line :=
  P [Str dq; Str (Method.GoName m); Str (dq ++ ": {")] ;;
  P [Str "Handler: func(ctx "; Str ctx; Str ", stream ";
     Str (streamServer (ident gen)); Str ") (interface{}, error) {"] ;;
  (let structName := serverStructName m in
   let sendArg := if negb (streamingClient m) then "m, " else EmptyString in
   (if negb (streamingClient m)
    then P [Str "m := new("; Ident (inputIdent m); Str ")"] ;;
         P [Str "if err := stream.RecvMsg(m); err != nil {"] ;;
         P [Str "return nil, err"] ;;
         P [Str "}"]
    else []) ;;
   (if streamingServer m
    then P [Str "return nil, svc."; Str (Method.GoName m); Str "(ctx, ";
            Str sendArg; Str "&"; Str structName; Str "{stream})"]
    else P [Str "return svc."; Str (Method.GoName m); Str "(ctx, ";
            Str sendArg; Str "&"; Str structName; Str "{stream})"])) ;;
  P [Str "},"] ;;
  (if streamingClient m
   then P [Str "StreamingClient: true,"]
   else P [Str "StreamingClient: false,"]) ;;
  (if streamingServer m
   then P [Str "StreamingServer: true,"]
   else P [Str "StreamingServer: false,"]) ;;
  P [Str "},"].

(** The registration function, printed from the two slices the interface
    loop built. *)
Definition registerFunc (methods streams : list Method.t) : list line :=
  let fullName := ServiceDesc.FullName (Service.Desc service) in
  let serviceName := Service.GoName service ++ "Service" in
  P [Str "func Register"; Str serviceName; Str "(srv *";
     Str (server (ident gen)); Str ", svc "; Str serviceName; Str "){"] ;;
  P [Str ("srv.RegisterService(" ++ dq); Str fullName; Str (dq ++ ", &");
     Str (serviceDesc (ident gen)); Str "{"] ;;
  (if Nat.ltb 0 (List.length methods)
   then P [Str "Methods: map[string]"; Str (method (ident gen)); Str "{"] ;;
        flat_map methodEntry methods ;;
        P [Str "},"]
   else []) ;;
  (if Nat.ltb 0 (List.length streams)
   then P [Str "Streams: map[string]"; Str (stream (ident gen)); Str "{"] ;;
        flat_map streamEntry streams ;;
        P [Str "},"]
   else []) ;;
  P [Str "})"] ;;
  P [Str "}"] ;;
  P [].

(** The line printed for one method of the separate client interface. *)
Definition clientInterfaceLine (m : Method.t) : list line :=
  if streamingClient m || streamingServer m then
    let sendArg :=
      if negb (streamingClient m)
      then "*" ++ p_QualifiedGoIdent (inputIdent m) ++ ", "
      else EmptyString in
    P [Str (Method.GoName m); Str "("; Str ctx; Str ", "; Str sendArg;
       Str ") ("; Str (Service.GoName service); Str "_";
       Str (Method.GoName m); Str "Client, error)"]
  else
    P [Str (Method.GoName m); Str "("; Str ctx; Str ", "; Str "*";
       Ident (inputIdent m); Str ")"; Str "(*"; Ident (outputIdent m);
       Str ", error)"].

(** One iteration of the client-interface loop; it appends to the two
    slices once more. *)
Definition clientInterfaceStep
    (st : list line * list Method.t * list Method.t) (m : Method.t)
    : list line * list Method.t * list Method.t :=
  let '(p, methods, streams) := st in
  if streamingClient m || streamingServer m
  then (p ;; clientInterfaceLine m, methods, (streams ++ [m])%list)
  else (p ;; clientInterfaceLine m, (methods ++ [m])%list, streams).

Definition clientType : string := Service.GoName service ++ "Client".

Definition clientStructType : string :=
  ToLower (slice_to_1 clientType) ++ slice_from_1 clientType.

(** [structName] of the client-side wrapper. *)
Definition clientStructName (m : Method.t) : string :=
  ToLower (Service.GoName service) ++ Method.GoName m ++ "Client".

(** The client struct and its constructor. *)
Definition clientStruct (clientInterface : string) : list line :=
  P [Str "type "; Str clientStructType; Str " struct{"] ;;
  P [Str "client *"; Str (client (ident gen))] ;;
  P [Str "}"] ;;
  P [Str "func New"; Str clientType; Str "(client *";
     Str (client (ident gen)); Str ")"; Str clientInterface; Str "{"] ;;
  P [Str "return &"; Str clientStructType; Str "{"] ;;
  P [Str "client:client,"] ;;
  P [Str "}"] ;;
  P [Str "}"] ;;
  P [].

(** Body of the last loop over [service.Methods]: the client method, and
    for a streaming method its client-stream interface and wrapper. *)
Definition clientMethod (m : Method.t) : list line :=
  let fullName := ServiceDesc.FullName (Service.Desc service) in
  let sendArg :=
    if negb (streamingClient m)
    then ", req *" ++ QualifiedGoIdent (out gen) (inputIdent m)
    else EmptyString in
  let intName := Service.GoName service ++ "_" ++ Method.GoName m ++ "Client" in
  let retArg :=
    if streamingClient m || streamingServer m then intName
    else "*" ++ QualifiedGoIdent (out gen) (outputIdent m) in
  P [Str "func (c *"; Str clientStructType; Str ") "; Str (Method.GoName m);
     Str "(ctx "; Str ctx; Str EmptyString; Str sendArg; Str ") ";
     Str "("; Str retArg; Str ", error) {"] ;;
  (if streamingClient m || streamingServer m then
     let '(streamingClientS, req) :=
       if streamingClient m then ("true", "nil") else ("false", "req") in
     let streamingServerS := if streamingServer m then "true" else "false" in
     P [Str "stream, err := c.client.NewStream(ctx, &";
        Str (streamDesc (ident gen)); Str "{"] ;;
     P [Str "StreamingClient: "; Str streamingClientS; Str ","] ;;
     P [Str "StreamingServer: "; Str streamingServerS; Str ","] ;;
     P [Str "}, "; Str (dq ++ fullName ++ dq ++ ", ");
        Str (dq ++ Method.GoName m ++ dq ++ ", "); Str req; Str ")"] ;;
     P [Str "if err != nil {"] ;;
     P [Str "return nil, err"] ;;
     P [Str "}"] ;;
     (let structName := clientStructName m in
      P [Str "x := &"; Str structName; Str "{stream}"] ;;
      P [Str "return x, nil"] ;;
      P [Str "}"] ;;
      P [] ;;
      P [Str "type "; Str intName; Str " interface {"] ;;
      (if streamingClient m
       then P [Str "Send(*"; Ident (inputIdent m); Str ") error"] else []) ;;
      (if streamingServer m
       then P [Str "Recv() (*"; Ident (outputIdent m); Str ", error)"]
       else P [Str "CloseAndRecv() (*"; Ident (outputIdent m);
               Str ", error)"]) ;;
      P [Str (streamClient (ident gen))] ;;
      P [Str "}"] ;;
      P [] ;;
      P [Str "type "; Str structName; Str " struct {"] ;;
      P [Str (streamClient (ident gen))] ;;
      P [Str "}"] ;;
      P [] ;;
      (if streamingClient m
       then P [Str "func (x *"; Str structName; Str ") Send(m *";
               Ident (inputIdent m); Str ") error {"] ;;
            P [Str "return x.";
               Str (GoIdent.GoName (streamClientIdent (ident gen)));
               Str ".SendMsg(m)"] ;;
            P [Str "}"] ;;
            P []
       else []) ;;
      (if streamingServer m
       then P [Str "func (x *"; Str structName; Str ") Recv() (*";
               Ident (outputIdent m); Str ", error) {"] ;;
            P [Str "m := new("; Ident (outputIdent m); Str ")"] ;;
            P [Str "if err := x.ClientStream.RecvMsg(m); err != nil {"] ;;
            P [Str "return nil, err"] ;;
            P [Str "}"] ;;
            P [Str "return m, nil"] ;;
            P [Str "}"] ;;
            P []
       else P [Str "func (x *"; Str structName; Str ") CloseAndRecv() (*";
               Ident (outputIdent m); Str ", error) {"] ;;
            P [Str "if err := x.ClientStream.CloseSend(); err != nil {"] ;;
            P [Str "return nil, err"] ;;
            P [Str "}"] ;;
            P [Str "m := new("; Ident (outputIdent m); Str ")"] ;;
            P [Str "if err := x.ClientStream.RecvMsg(m); err != nil {"] ;;
            P [Str "return nil, err"] ;;
            P [Str "}"] ;;
            P [Str "return m, nil"] ;;
            P [Str "}"] ;;
            P []))
   else
     P [Str "var resp "; Ident (outputIdent m)] ;;
     P [Str ("if err := c.client.Call(ctx, " ++ dq); Str fullName;
        Str (dq ++ ", " ++ dq); Str (MethodDesc.Name (Method.Desc m));
        Str (dq ++ ", req, &resp); err != nil {")] ;;
     P [Str "return nil, err"] ;;
     P [Str "}"] ;;
     P [Str "return &resp, nil"] ;;
     P [Str "}"] ;;
     P []).

(** The state after the service-interface loop: the printed lines and the
    slices [methods] and [streams]. *)
Definition interfaceLoop : list line * list Method.t * list Method.t :=
  let serviceName := Service.GoName service ++ "Service" in
  fold_left interfaceStep (Service.Methods service)
    (P [Str "type "; Str serviceName; Str " interface{"], [], []).

(** The name of the interface the client constructor returns, and the
    separate client interface when one is printed. *)
Definition clientInterfaceDecl (methods streams : list Method.t)
    : string * list line :=
  let serviceName := Service.GoName service ++ "Service" in
  if Nat.ltb 0 (List.length streams) then
    let clientInterface := clientType in
    let '(p, _, _) :=
      fold_left clientInterfaceStep (Service.Methods service)
        (P [Str "type "; Str clientInterface; Str " interface{"],
         methods, streams) in
    (clientInterface, p ;; P [Str "}"] ;; P [])
  else (serviceName, []).

Definition genService : list line :=
  let '(p, methods, streams) := interfaceLoop in
  let p := p ;; P [Str "}"] in
  let p := p ;; P [] in
  let p := fold_left (fun p m => p ;; serverStream m) streams p in
  let p := p ;; registerFunc methods streams in
  let '(clientInterface, decl) := clientInterfaceDecl methods streams in
  let p := p ;; decl in
  let p := p ;; clientStruct clientInterface in
  fold_left (fun p m => p ;; clientMethod m) (Service.Methods service) p.

End GenService.

(** The file driver: the header lines, then every service in order. *)
Module File.
Record t : Type := mk {
  Path : string;
  GoPackageName : string;
  Services : list Service.t
}.
End File.

Definition generate (out : GeneratedFile) (input : File.t) : list line :=
  let file :=
    P [Str "// Code generated by protoc-gen-go-ttrpc. DO NOT EDIT."] ;;
    P [Str "// source: "; Str (File.Path input)] ;;
    P [Str "package "; Str (File.GoPackageName input)] in
  let gen := newGenerator out in
  fold_left (fun p service => p ;; genService gen service)
    (File.Services input) file.

(** ** The shapes of the specification *)

(** The four RPC shapes and the classification table of the
    specification.  The generator has no such function: it tests the two
    flags where it needs them.  The theorems below compare its branches
    with this table. *)
Inductive Shape : Type := UNARY | CLIENT_STREAM | SERVER_STREAM | BIDI_STREAM.

Definition classify (clientStreaming serverStreaming : bool) : Shape :=
  match clientStreaming, serverStreaming with
  | false, false => UNARY
  | true, false => CLIENT_STREAM
  | false, true => SERVER_STREAM
  | true, true => BIDI_STREAM
  end.

Definition shapeOf (m : Method.t) : Shape :=
  classify (streamingClient m) (streamingServer m).

Definition isUnary (sh : Shape) : bool :=
  match sh with UNARY => true | _ => false end.

(** The methods a loop over [service.Methods] sorts into [methods] and
    into [streams]. *)
Definition unaryMethods (service : Service.t) : list Method.t :=
  filter (fun m => negb (isStream m)) (Service.Methods service).
Definition streamMethods (service : Service.t) : list Method.t :=
  filter isStream (Service.Methods service).

(** The signature of the service-interface method, row by row of the
    specification's table; [ServerStreamType] is [Service_MethodServer]. *)
Definition interfaceSignature (gen : generator) (service : Service.t)
    (m : Method.t) : string :=
  let name := Method.GoName m in
  let ctx := context (ident gen) in
  let input := "*" ++ QualifiedGoIdent (out gen) (inputIdent m) in
  let output := "*" ++ QualifiedGoIdent (out gen) (outputIdent m) in
  let serverStreamType :=
    Service.GoName service ++ "_" ++ Method.GoName m ++ "Server" in
  match shapeOf m with
  | UNARY =>
      name ++ "(" ++ ctx ++ ", " ++ input ++ ") (" ++ output ++ ", error)"
  | CLIENT_STREAM =>
      name ++ "(" ++ ctx ++ ", " ++ serverStreamType ++ ") (" ++ output
        ++ ", error)"
  | SERVER_STREAM =>
      name ++ "(" ++ ctx ++ ", " ++ input ++ ", " ++ serverStreamType
        ++ ") error"
  | BIDI_STREAM =>
      name ++ "(" ++ ctx ++ ", " ++ serverStreamType ++ ") error"
  end.

(** ** Reading the generated code *)

(** A block of lines occurs, as a whole and in order, in a buffer (of
    [P] calls, or of text). *)
Definition occursIn {A : Type} (block p : list A) : Prop :=
  exists pre post, p = (pre ++ block ++ post)%list.

(** The values a recogniser finds, line by line. *)
Fixpoint collect {A : Type} (f : line -> option A) (p : list line) : list A :=
  match p with
  | [] => []
  | l :: p' =>
      match f l with
      | Some a => a :: collect f p'
      | None => collect f p'
      end
  end.

(** [srv.RegisterService("key", &ServiceDesc{]: the registry key. *)
Definition registeredService (l : line) : option string :=
  match l with
  | [Str a; Str k; Str b; Str _; Str c] =>
      if (a =? "srv.RegisterService(" ++ dq) && (b =? dq ++ ", &")
         && (c =? "{")
      then Some k else None
  | _ => None
  end.

(** ["key": func(ctx ...]: the key of an entry of the [Methods] map. *)
Definition methodKey (l : line) : option string :=
  match l with
  | [Str a; Str k; Str b; Str _; Str _] =>
      if (a =? dq) && (b =? dq ++ ": func(ctx ") then Some k else None
  | _ => None
  end.

(** ["key": {]: the key of an entry of the [Streams] map. *)
Definition streamKey (l : line) : option string :=
  match l with
  | [Str a; Str k; Str b] =>
      if (a =? dq) && (b =? dq ++ ": {") then Some k else None
  | _ => None
  end.

(** [c.client.Call(ctx, "service", "method", req, &resp)]: the method
    name a unary client method passes to the transport. *)
Definition callMethodName (l : line) : option string :=
  match l with
  | [Str a; Str _; Str b; Str name; Str c] =>
      if (a =? "if err := c.client.Call(ctx, " ++ dq)
         && (b =? dq ++ ", " ++ dq)
         && (c =? dq ++ ", req, &resp); err != nil {")
      then Some name else None
  | _ => None
  end.

(** [}, "service", "method", req)]: the operand holding the quoted method
    name a streaming client method passes to [NewStream]. *)
Definition newStreamMethodArg (l : line) : option string :=
  match l with
  | [Str a; Str _; Str name; Str _; Str c] =>
      if (a =? "}, ") && (c =? ")") then Some name else None
  | _ => None
  end.

(** A Go string literal followed by the separator of the next operand. *)
Definition quotedArg (s : string) : string := dq ++ s ++ dq ++ ", ".

(** A member [name(...)] of a stream interface: [P] is given the opening
    text, the message type and the closing text. *)
Definition declaresMethod (name : string) (l : line) : bool :=
  match l with
  | [Str a; Ident _; Str _] => prefix (name ++ "(") a
  | _ => false
  end.


(** A stream interface or wrapper exposes a method. *)
Definition declares (name : string) (p : list line) : bool :=
  existsb (declaresMethod name) p.

(** [type name struct {]: the declaration of a stream wrapper struct. *)
Definition wrapperStruct (l : line) : option string :=
  match l with
  | [Str a; Str n; Str b] =>
      if (a =? "type ") && (b =? " struct {") then Some n else None
  | _ => None
  end.

(** [type name interface{]: the declaration of a service or client
    interface (the stream interfaces are printed with a space before the
    brace). *)
Definition interfaceDecl (l : line) : option string :=
  match l with
  | [Str a; Str n; Str b] =>
      if (a =? "type ") && (b =? " interface{") then Some n else None
  | _ => None
  end.

Definition goBool (b : bool) : string := if b then "true" else "false".



(** ** Sample inputs *)

(** A resolver for the examples: names of the file's own package stay
    bare, the others are prefixed with their package name. *)
Definition sampleQualifiedGoIdent (i : GoIdent.t) : string :=
  if GoIdent.GoImportPath i =? "example/api" then GoIdent.GoName i
  else if GoIdent.GoImportPath i =? "context"
       then "context." ++ GoIdent.GoName i
       else "ttrpc." ++ GoIdent.GoName i.

Definition sampleFile : GeneratedFile := mkFile sampleQualifiedGoIdent.
Definition sampleGen : generator := newGenerator sampleFile.

Definition msg (name : string) : Message.t :=
  Message.mk (GoIdent.mk name "example/api").

(** service Echo { rpc Say(EchoRequest) returns (EchoResponse); } *)
Definition sayMethod : Method.t :=
  Method.mk "Say" (MethodDesc.mk "Say" false false)
    (msg "EchoRequest") (msg "EchoResponse").
Definition echoService : Service.t :=
  Service.mk "Echo" (ServiceDesc.mk "example.Echo") [sayMethod].

(** service Chat { rpc Talk(stream In) returns (stream Out); } *)
Definition talkMethod : Method.t :=
  Method.mk "Talk" (MethodDesc.mk "Talk" true true) (msg "In") (msg "Out").
Definition chatService : Service.t :=
  Service.mk "Chat" (ServiceDesc.mk "example.Chat") [talkMethod].

(** service Upload { rpc Put(stream Chunk) returns (Ack); } *)
Definition putMethod : Method.t :=
  Method.mk "Put" (MethodDesc.mk "Put" true false) (msg "Chunk") (msg "Ack").
Definition uploadService : Service.t :=
  Service.mk "Upload" (ServiceDesc.mk "example.Upload") [putMethod].

(** A service with one method of every shape. *)
Definition getMethod : Method.t :=
  Method.mk "Get" (MethodDesc.mk "Get" false true) (msg "Req") (msg "Item").
Definition mixedService : Service.t :=
  Service.mk "Store" (ServiceDesc.mk "example.Store")
    [sayMethod; talkMethod; putMethod; getMethod].

(** service Greeter { rpc say(EchoRequest) returns (EchoResponse); }: the
    method is written in lower case in the .proto file, and protogen
    gives it the Go name [Say]. *)
Definition lowerSayMethod : Method.t :=
  Method.mk "Say" (MethodDesc.mk "say" false false)
    (msg "EchoRequest") (msg "EchoResponse").
Definition greeterService : Service.t :=
  Service.mk "Greeter" (ServiceDesc.mk "example.Greeter") [lowerSayMethod].

(** ** More recognisers *)

(** [Methods: map[string]Method{] and [Streams: map[string]Stream{]: the
    opening of one of the two maps of the service description. *)
Definition mapHeader (l : line) : option string :=
  match l with
  | [Str a; Str _; Str b] =>
      if (a =? "Methods: map[string]") && (b =? "{") then Some "Methods"
      else if (a =? "Streams: map[string]") && (b =? "{") then Some "Streams"
      else None
  | _ => None
  end.

(** [func (c *recv) Name(ctx ...]: the receiver and the name of a client
    method. *)
Definition clientMethodName (l : line) : option (string * string) :=
  match l with
  | [Str a; Str recv; Str b; Str name; Str c; Str _; Str _; Str _; Str _;
     Str _; Str _; Str _] =>
      if (a =? "func (c *") && (b =? ") ") && (c =? "(ctx ")
      then Some (recv, name) else None
  | _ => None
  end.

(** [type Service_MethodServer interface {]: the declaration of a
    server-stream interface. *)
Definition serverStreamInterface (l : line) : option string :=
  match l with
  | [Str a; Str s; Str u; Str m; Str b] =>
      if (a =? "type ") && (u =? "_") && (b =? "Server interface {")
      then Some (s ++ "_" ++ m ++ "Server") else None
  | _ => None
  end.

(** [type Service_MethodClient interface {]: the declaration of a
    client-stream interface. *)
Definition clientStreamInterface (l : line) : option string :=
  match l with
  | [Str a; Str n; Str b] =>
      if (a =? "type ") && (b =? " interface {") then Some n else None
  | _ => None
  end.

(** [return svc.Method(ctx, &wrapper{stream})], with or without a leading
    nil result and a message operand: the wrapper struct a stream handler
    builds. *)
Definition handlerWrapper (l : line) : option string :=
  match l with
  | [Str a; Str _; Str b; Str _; Str c; Str n; Str d] =>
      if ((a =? "return nil, svc.") || (a =? "return svc."))
         && (b =? "(ctx, ") && (c =? "&") && (d =? "{stream})")
      then Some n else None
  | _ => None
  end.

(** [x := &wrapper{stream}]: the wrapper struct a streaming client method
    builds. *)
Definition clientWrapperUse (l : line) : option string :=
  match l with
  | [Str a; Str n; Str b] =>
      if (a =? "x := &") && (b =? "{stream}") then Some n else None
  | _ => None
  end.

(** service Clash { rpc say(EchoRequest) returns (EchoResponse);
    rpc Say(EchoRequest) returns (EchoResponse); }: two unary methods
    with distinct names in the .proto file and the same Go name. *)
Definition clashService : Service.t :=
  Service.mk "Clash" (ServiceDesc.mk "example.Clash")
    [lowerSayMethod; sayMethod].

(** service Dup { rpc get_all(stream Req) returns (stream Item);
    rpc GetAll(stream Req) returns (stream Item); }: two streaming
    methods with distinct names in the .proto file and the same Go
    name. *)
Definition getAllSnakeMethod : Method.t :=
  Method.mk "GetAll" (MethodDesc.mk "get_all" true true)
    (msg "Req") (msg "Item").
Definition getAllMethod : Method.t :=
  Method.mk "GetAll" (MethodDesc.mk "GetAll" true true)
    (msg "Req") (msg "Item").
Definition dupService : Service.t :=
  Service.mk "Dup" (ServiceDesc.mk "example.Dup")
    [getAllSnakeMethod; getAllMethod].

(** service Empty {} *)
Definition emptyService : Service.t :=
  Service.mk "Empty" (ServiceDesc.mk "example.Empty") [].

(** A .proto file with two services. *)
Definition sampleInput : File.t :=
  File.mk "example/api.proto" "api" [echoService; chatService].

(** * Properties *)

(** ** Strings and lists *)

Lemma append_assoc (a b c : string) : (a ++ b) ++ c = a ++ b ++ c.
Proof.
  induction a as [|x a IH]; simpl; [reflexivity | now rewrite IH].
Qed.

Lemma length_append (a b : string) :
  String.length (a ++ b) = String.length a + String.length b.
Proof.
  induction a as [|x a IH]; simpl; [reflexivity | now rewrite IH].
Qed.

Lemma append_cancel_l (a x y : string) : a ++ x = a ++ y -> x = y.
Proof.
  induction a as [|c a IH]; simpl; intros H; [exact H|].
  injection H as H. now apply IH.
Qed.

Lemma append_same_length (a b x y : string) :
  String.length a = String.length b -> a ++ x = b ++ y -> a = b /\ x = y.
Proof.
  revert b. induction a as [|c a IH]; intros [|d b] Hlen H;
    simpl in *; try discriminate.
  - now split.
  - injection H as Hc H. injection Hlen as Hlen.
    destruct (IH b Hlen H) as [-> ->]. now subst.
Qed.

(** Wrapper names of two methods: equal names force equal methods' Go
    names and equal suffixes, when the suffixes have the same length. *)
Lemma wrapper_name_inj (pre m1 m2 suf1 suf2 : string) :
  String.length suf1 = String.length suf2 ->
  pre ++ m1 ++ suf1 = pre ++ m2 ++ suf2 -> m1 = m2 /\ suf1 = suf2.
Proof.
  intros Hlen H. apply append_cancel_l in H.
  apply append_same_length; [|exact H].
  apply (f_equal String.length) in H. rewrite !length_append in H. lia.
Qed.

Lemma fold_left_seq {A : Type} (f : A -> list line) (l : list A)
    (p : list line) :
  fold_left (fun p m => p ;; f m) l p = (p ++ flat_map f l)%list.
Proof.
  revert p. induction l as [|m l IH]; intros p; simpl.
  - now rewrite app_nil_r.
  - rewrite IH. now rewrite <- app_assoc.
Qed.

Lemma collect_app {A : Type} (f : line -> option A) (p q : list line) :
  collect f (p ++ q) = (collect f p ++ collect f q)%list.
Proof.
  induction p as [|l p IH]; simpl; [reflexivity|].
  destruct (f l); simpl; now rewrite IH.
Qed.

Lemma collect_flat_map {A B : Type} (f : line -> option A)
    (g : B -> list line) (h : B -> list A) (l : list B) :
  (forall b, collect f (g b) = h b) ->
  collect f (flat_map g l) = flat_map h l.
Proof.
  intros H. induction l as [|b l IH]; simpl; [reflexivity|].
  now rewrite collect_app, H, IH.
Qed.

Lemma flat_map_singleton {A B : Type} (f : A -> B) (l : list A) :
  flat_map (fun a => [f a]) l = map f l.
Proof.
  induction l as [|a l IH]; simpl; [reflexivity | now rewrite IH].
Qed.

Lemma flat_map_nil {A B : Type} (l : list A) :
  flat_map (fun _ : A => @nil B) l = [].
Proof.
  induction l as [|a l IH]; simpl; [reflexivity | exact IH].
Qed.

Lemma filter_split_perm {A : Type} (f : A -> bool) (l : list A) :
  Permutation (filter (fun a => negb (f a)) l ++ filter f l) l.
Proof.
  induction l as [|a l IH]; simpl; [constructor|].
  destruct (f a); simpl.
  - apply Permutation_sym, Permutation_cons_app, Permutation_sym, IH.
  - now constructor.
Qed.

Section OccursIn.

Context {A : Type}.
Implicit Types a b c p q : list A.

Lemma occursIn_refl p : occursIn p p.
Proof. exists [], []. simpl. now rewrite app_nil_r. Qed.

Lemma occursIn_trans a b c : occursIn a b -> occursIn b c -> occursIn a c.
Proof.
  intros (p1 & q1 & ->) (p2 & q2 & ->).
  exists (p2 ++ p1)%list, (q1 ++ q2)%list. now rewrite <- !app_assoc.
Qed.

Lemma occursIn_app_l a p q : occursIn a p -> occursIn a (p ++ q).
Proof.
  intros (p1 & q1 & ->). exists p1, (q1 ++ q)%list.
  now rewrite <- !app_assoc.
Qed.

Lemma occursIn_app_r a p q : occursIn a q -> occursIn a (p ++ q).
Proof.
  intros (p1 & q1 & ->). exists (p ++ p1)%list, q1.
  now rewrite <- !app_assoc.
Qed.

(** The head of a block that occurs, occurs. *)
Lemma occursIn_head a b p : occursIn (a ++ b) p -> occursIn a p.
Proof.
  intros (p1 & q1 & ->). exists p1, (b ++ q1)%list.
  now rewrite <- !app_assoc.
Qed.

Lemma occursIn_incl a p (x : A) : occursIn a p -> In x a -> In x p.
Proof.
  intros (p1 & q1 & ->) H. apply in_or_app. right.
  apply in_or_app. now left.
Qed.

Lemma occursIn_flat_map {B : Type} (f : B -> list A) (l : list B) (x : B) :
  In x l -> occursIn (f x) (flat_map f l).
Proof.
  intros H. apply in_split in H as (l1 & l2 & ->).
  rewrite flat_map_app. simpl.
  exists (flat_map f l1), (flat_map f l2). reflexivity.
Qed.

End OccursIn.

Lemma occursIn_map {A B : Type} (f : A -> B) (a p : list A) :
  occursIn a p -> occursIn (map f a) (map f p).
Proof.
  intros (p1 & q1 & ->). exists (map f p1), (map f q1).
  now rewrite !map_app.
Qed.

(** ** The loops of genService *)

Section Loops.

Variable gen : generator.
Variable service : Service.t.

(** One step of the interface loop prints one line and appends the
    method to one of the two slices. *)
Lemma interfaceStep_eq (p : list line) (methods streams : list Method.t)
    (m : Method.t) :
  interfaceStep gen service (p, methods, streams) m =
  ((p ++ interfaceLine gen service m)%list,
   (methods ++ (if isStream m then [] else [m]))%list,
   (streams ++ (if isStream m then [m] else []))%list).
Proof.
  unfold interfaceStep, isStream.
  destruct (streamingClient m || streamingServer m);
    now rewrite !app_nil_r.
Qed.

Lemma clientInterfaceStep_eq (p : list line) (methods streams : list Method.t)
    (m : Method.t) :
  clientInterfaceStep gen service (p, methods, streams) m =
  ((p ++ clientInterfaceLine gen service m)%list,
   (methods ++ (if isStream m then [] else [m]))%list,
   (streams ++ (if isStream m then [m] else []))%list).
Proof.
  unfold clientInterfaceStep, isStream.
  destruct (streamingClient m || streamingServer m);
    now rewrite !app_nil_r.
Qed.

(** The interface loop prints one line per method and sorts the methods
    by the streaming test, keeping their order. *)
Lemma interfaceStep_fold (l : list Method.t) (p : list line)
    (methods streams : list Method.t) :
  fold_left (interfaceStep gen service) l (p, methods, streams) =
  ((p ++ flat_map (interfaceLine gen service) l)%list,
   (methods ++ filter (fun m => negb (isStream m)) l)%list,
   (streams ++ filter isStream l)%list).
Proof.
  revert p methods streams.
  induction l as [|m l IH]; intros p methods streams; cbn [fold_left].
  - simpl. now rewrite !app_nil_r.
  - rewrite interfaceStep_eq, IH.
    cbn [filter]. destruct (isStream m); simpl; now rewrite <- !app_assoc.
Qed.

Lemma clientInterfaceStep_fold (l : list Method.t) (p : list line)
    (methods streams : list Method.t) :
  fold_left (clientInterfaceStep gen service) l (p, methods, streams) =
  ((p ++ flat_map (clientInterfaceLine gen service) l)%list,
   (methods ++ filter (fun m => negb (isStream m)) l)%list,
   (streams ++ filter isStream l)%list).
Proof.
  revert p methods streams.
  induction l as [|m l IH]; intros p methods streams; cbn [fold_left].
  - simpl. now rewrite !app_nil_r.
  - rewrite clientInterfaceStep_eq, IH.
    cbn [filter]. destruct (isStream m); simpl; now rewrite <- !app_assoc.
Qed.

Lemma interfaceLoop_eq :
  interfaceLoop gen service =
  ((P [Str "type "; Str (Service.GoName service ++ "Service");
       Str " interface{"]
    ++ flat_map (interfaceLine gen service) (Service.Methods service))%list,
   unaryMethods service, streamMethods service).
Proof.
  unfold interfaceLoop. now rewrite interfaceStep_fold.
Qed.

Lemma clientInterfaceDecl_eq (methods streams : list Method.t) :
  clientInterfaceDecl gen service methods streams =
  if Nat.ltb 0 (List.length streams)
  then (clientType service,
        (P [Str "type "; Str (clientType service); Str " interface{"]
         ++ flat_map (clientInterfaceLine gen service)
              (Service.Methods service)
         ++ P [Str "}"] ++ P [])%list)
  else (Service.GoName service ++ "Service", []).
Proof.
  unfold clientInterfaceDecl.
  destruct (Nat.ltb 0 (List.length streams)); [|reflexivity].
  rewrite clientInterfaceStep_fold. now rewrite <- app_assoc.
Qed.

(** The output of genService, section by section. *)
Lemma genService_sections :
  genService gen service =
  (P [Str "type "; Str (Service.GoName service ++ "Service");
      Str " interface{"]
   ++ flat_map (interfaceLine gen service) (Service.Methods service)
   ++ P [Str "}"] ++ P []
   ++ flat_map (serverStream gen service) (streamMethods service)
   ++ registerFunc gen service (unaryMethods service) (streamMethods service)
   ++ snd (clientInterfaceDecl gen service
             (unaryMethods service) (streamMethods service))
   ++ clientStruct gen service
        (fst (clientInterfaceDecl gen service
                (unaryMethods service) (streamMethods service)))
   ++ flat_map (clientMethod gen service) (Service.Methods service))%list.
Proof.
  unfold genService. rewrite interfaceLoop_eq.
  destruct (clientInterfaceDecl gen service (unaryMethods service)
              (streamMethods service)) as [clientInterface decl].
  rewrite !fold_left_seq. simpl fst. simpl snd.
  now rewrite <- !app_assoc.
Qed.

End Loops.

(** ** The emitted text *)

(** Brings both sides of an equation between texts to the same nesting
    of concatenations. *)
Ltac str_norm := repeat (progress (rewrite ?append_assoc; simpl)).

Lemma Content_app (out : GeneratedFile) (p q : list line) :
  Content out (p ++ q) = (Content out p ++ Content out q)%list.
Proof. apply map_app. Qed.

Lemma Content_flat_map {A : Type} (out : GeneratedFile) (f : A -> list line)
    (h : A -> string) (l : list A) :
  (forall a, Content out (f a) = [h a]) ->
  Content out (flat_map f l) = map h l.
Proof.
  intros H. induction l as [|a l IH]; simpl; [reflexivity|].
  now rewrite Content_app, H, IH.
Qed.

Lemma interfaceLine_text (gen : generator) (service : Service.t)
    (m : Method.t) :
  Content (out gen) (interfaceLine gen service m) =
  [interfaceSignature gen service m].
Proof.
  unfold interfaceLine, interfaceArgs, interfaceSignature, shapeOf.
  destruct (streamingClient m), (streamingServer m); simpl;
    str_norm; reflexivity.
Qed.

(** ** Classification *)

Lemma isStream_shape (m : Method.t) :
  isStream m = negb (isUnary (shapeOf m)).
Proof.
  unfold isStream, shapeOf.
  now destruct (streamingClient m), (streamingServer m).
Qed.

Lemma filter_ext_bool {A : Type} (f g : A -> bool) (l : list A) :
  (forall a, f a = g a) -> filter f l = filter g l.
Proof.
  intros H. induction l as [|a l IH]; simpl; [reflexivity|].
  now rewrite H, IH.
Qed.

(** C10. Classification is the total function [classify] of the two
    streaming flags, with the four rows (false,false) UNARY, (true,false)
    CLIENT_STREAM, (false,true) SERVER_STREAM, (true,true) BIDI_STREAM.
    The generator's own tests of the flags are this classification.  Its
    four-way branch in the interface loop computes, for every method, the
    argument and result strings of the row of the method's shape: UNARY
    the Input and (Output, error), CLIENT_STREAM the server-stream type
    and (Output, error), SERVER_STREAM the Input with the server-stream
    type and error, BIDI_STREAM the server-stream type and error; and the
    line it prints is the signature of that shape.  The shape tells the
    value of each flag the generator tests, the interface loop puts a
    method into [methods] when its shape is UNARY and into [streams]
    otherwise, and the client-interface loop, which runs the test again
    on the same methods, sorts every method the same way. *)
Theorem classify_total_function (gen : generator) (service : Service.t)
    (p : list line) (methods streams : list Method.t) (m : Method.t) :
  let input := "*" ++ QualifiedGoIdent (out gen) (inputIdent m) in
  let results :=
    "(*" ++ QualifiedGoIdent (out gen) (outputIdent m) ++ ", error)" in
  let serverStreamType :=
    Service.GoName service ++ "_" ++ Method.GoName m ++ "Server" in
  classify false false = UNARY /\
  classify true false = CLIENT_STREAM /\
  classify false true = SERVER_STREAM /\
  classify true true = BIDI_STREAM /\
  shapeOf m = classify (streamingClient m) (streamingServer m) /\
  interfaceArgs gen service m =
    match shapeOf m with
    | UNARY => (input, results)
    | CLIENT_STREAM => (serverStreamType, results)
    | SERVER_STREAM => (input ++ ", " ++ serverStreamType, "error")
    | BIDI_STREAM => (serverStreamType, "error")
    end /\
  Content (out gen) (interfaceLine gen service m) =
    [interfaceSignature gen service m] /\
  isStream m = negb (isUnary (shapeOf m)) /\
  streamingClient m =
    match shapeOf m with
    | CLIENT_STREAM | BIDI_STREAM => true
    | UNARY | SERVER_STREAM => false
    end /\
  streamingServer m =
    match shapeOf m with
    | SERVER_STREAM | BIDI_STREAM => true
    | UNARY | CLIENT_STREAM => false
    end /\
  interfaceStep gen service (p, methods, streams) m =
    ((p ++ interfaceLine gen service m)%list,
     (methods ++ (if isUnary (shapeOf m) then [m] else []))%list,
     (streams ++ (if isUnary (shapeOf m) then [] else [m]))%list) /\
  clientInterfaceStep gen service (p, methods, streams) m =
    ((p ++ clientInterfaceLine gen service m)%list,
     (methods ++ (if isUnary (shapeOf m) then [m] else []))%list,
     (streams ++ (if isUnary (shapeOf m) then [] else [m]))%list) /\
  snd (fst (interfaceLoop gen service)) =
    filter (fun m => isUnary (shapeOf m)) (Service.Methods service) /\
  snd (interfaceLoop gen service) =
    filter (fun m => negb (isUnary (shapeOf m))) (Service.Methods service).
Proof.
  intros input results serverStreamType.
  subst input results serverStreamType.
  repeat split.
  - unfold interfaceArgs, shapeOf.
    destruct (streamingClient m), (streamingServer m);
      simpl; str_norm; reflexivity.
  - apply interfaceLine_text.
  - apply isStream_shape.
  - unfold shapeOf. now destruct (streamingClient m), (streamingServer m).
  - unfold shapeOf. now destruct (streamingClient m), (streamingServer m).
  - rewrite interfaceStep_eq, isStream_shape.
    now destruct (isUnary (shapeOf m)).
  - rewrite clientInterfaceStep_eq, isStream_shape.
    now destruct (isUnary (shapeOf m)).
  - rewrite interfaceLoop_eq. simpl. unfold unaryMethods.
    apply filter_ext_bool. intros a. rewrite isStream_shape.
    now destruct (isUnary (shapeOf a)).
  - rewrite interfaceLoop_eq. simpl. unfold streamMethods.
    apply filter_ext_bool. intros a. apply isStream_shape.
Qed.

(** ** The service interface *)

(** C4. The generated file opens with the service interface: its header,
    then exactly one method per method of the service, in order, then the
    closing brace.  The text of each method is [interfaceSignature], with
    Input and Output passed by pointer: a UNARY method takes (context,
    Input) and returns (Output, error); a CLIENT_STREAM method takes
    (context, ServerStreamType) and returns (Output, error); a
    SERVER_STREAM method takes (context, Input, ServerStreamType) and
    returns error; a BIDI_STREAM method takes (context, ServerStreamType)
    and returns error. *)
Theorem service_interface_signatures (gen : generator) (service : Service.t) :
  exists post,
    Content (out gen) (genService gen service) =
    ([("type " ++ Service.GoName service ++ "Service interface{")%string]
     ++ map (interfaceSignature gen service) (Service.Methods service)
     ++ ["}"] ++ post)%list.
Proof.
  rewrite genService_sections.
  rewrite !Content_app.
  rewrite (Content_flat_map _ _ _ _ (interfaceLine_text gen service)).
  eexists. f_equal. simpl. str_norm. reflexivity.
Qed.

(** ** Recognisers over the sections of the output *)

Section Sections.

Variable gen : generator.
Variable service : Service.t.

(** What a recogniser finds in the whole output is what it finds in the
    sections, in order. *)
Lemma collect_genService {A : Type} (f : line -> option A) :
  collect f (genService gen service) =
  (collect f (P [Str "type "; Str (Service.GoName service ++ "Service");
                 Str " interface{"])
   ++ flat_map (fun m => collect f (interfaceLine gen service m))
        (Service.Methods service)
   ++ collect f (P [Str "}"] ++ P [])
   ++ flat_map (fun m => collect f (serverStream gen service m))
        (streamMethods service)
   ++ collect f (registerFunc gen service (unaryMethods service)
                   (streamMethods service))
   ++ collect f (snd (clientInterfaceDecl gen service
                        (unaryMethods service) (streamMethods service)))
   ++ collect f (clientStruct gen service
                   (fst (clientInterfaceDecl gen service
                           (unaryMethods service) (streamMethods service))))
   ++ flat_map (fun m => collect f (clientMethod gen service m))
        (Service.Methods service))%list.
Proof.
  rewrite genService_sections, !collect_app.
  rewrite !(collect_flat_map f _ (fun m => collect f (_ m)))
    by reflexivity.
  now rewrite <- !app_assoc.
Qed.

Lemma collect_clientInterfaceDecl {A : Type} (f : line -> option A)
    (methods streams : list Method.t) :
  (forall m, collect f (clientInterfaceLine gen service m) = []) ->
  collect f (snd (clientInterfaceDecl gen service methods streams)) =
  if Nat.ltb 0 (List.length streams)
  then (collect f (P [Str "type "; Str (clientType service);
                      Str " interface{"])
        ++ collect f (P [Str "}"] ++ P []))%list
  else [].
Proof.
  intros H. rewrite clientInterfaceDecl_eq.
  destruct (Nat.ltb 0 (List.length streams)); [|reflexivity].
  cbn [snd]. rewrite !collect_app.
  rewrite (collect_flat_map f _ (fun _ => [])) by exact H.
  now rewrite flat_map_nil.
Qed.

(** The registration function, read by the three recognisers of keys. *)
Lemma registerFunc_service (methods streams : list Method.t) :
  collect registeredService (registerFunc gen service methods streams) =
  [ServiceDesc.FullName (Service.Desc service)].
Proof.
  unfold registerFunc.
  assert (Hm : forall m, collect registeredService (methodEntry gen m)
                         = []) by reflexivity.
  assert (Hs : forall m, collect registeredService (streamEntry gen service m)
                         = []).
  { intros m. unfold streamEntry.
    now destruct (streamingClient m), (streamingServer m). }
  rewrite !collect_app.
  destruct (Nat.ltb 0 (List.length methods)),
           (Nat.ltb 0 (List.length streams));
    rewrite ?collect_app,
      ?(collect_flat_map registeredService _ (fun _ => []) methods Hm),
      ?(collect_flat_map registeredService _ (fun _ => []) streams Hs),
      ?flat_map_nil; reflexivity.
Qed.

Lemma registerFunc_methodKeys (methods streams : list Method.t) :
  collect methodKey (registerFunc gen service methods streams) =
  map Method.GoName methods.
Proof.
  unfold registerFunc.
  assert (Hm : forall m, collect methodKey (methodEntry gen m)
                         = [Method.GoName m]) by reflexivity.
  assert (Hs : forall m, collect methodKey (streamEntry gen service m) = []).
  { intros m. unfold streamEntry.
    now destruct (streamingClient m), (streamingServer m). }
  rewrite !collect_app.
  destruct methods as [|m0 methods'];
    destruct (Nat.ltb 0 (List.length streams));
    cbn [List.length Nat.ltb Nat.leb];
    rewrite ?collect_app,
      ?(collect_flat_map methodKey _ _ _ Hm),
      ?(collect_flat_map methodKey _ (fun _ => []) streams Hs),
      ?flat_map_nil, ?flat_map_singleton; simpl; rewrite ?app_nil_r;
    reflexivity.
Qed.

Lemma registerFunc_streamKeys (methods streams : list Method.t) :
  collect streamKey (registerFunc gen service methods streams) =
  map Method.GoName streams.
Proof.
  unfold registerFunc.
  assert (Hm : forall m, collect streamKey (methodEntry gen m) = [])
    by reflexivity.
  assert (Hs : forall m, collect streamKey (streamEntry gen service m)
                         = [Method.GoName m]).
  { intros m. unfold streamEntry.
    now destruct (streamingClient m), (streamingServer m). }
  rewrite !collect_app.
  destruct streams as [|m0 streams'];
    destruct (Nat.ltb 0 (List.length methods));
    cbn [List.length Nat.ltb Nat.leb];
    rewrite ?collect_app,
      ?(collect_flat_map streamKey _ (fun _ => []) methods Hm),
      ?(collect_flat_map streamKey _ _ _ Hs),
      ?flat_map_nil, ?flat_map_singleton; simpl; rewrite ?app_nil_r;
    reflexivity.
Qed.

End Sections.

(** ** Registration keys *)

(** Settles what a recogniser finds in a block printed for one method,
    whatever the two flags are. *)
Ltac by_flags m :=
  destruct (streamingClient m), (streamingServer m); reflexivity.

Section Registration.

Variable gen : generator.
Variable service : Service.t.

(** A recogniser that finds nothing outside the registration function
    finds in the whole output what it finds there. *)
Lemma collect_only_registerFunc {A : Type} (f : line -> option A) :
  (forall n, collect f (P [Str "type "; Str n; Str " interface{"]) = []) ->
  collect f (P [Str "}"] ++ P []) = [] ->
  (forall m, collect f (interfaceLine gen service m) = []) ->
  (forall m, collect f (serverStream gen service m) = []) ->
  (forall m, collect f (clientInterfaceLine gen service m) = []) ->
  (forall i, collect f (clientStruct gen service i) = []) ->
  (forall m, collect f (clientMethod gen service m) = []) ->
  collect f (genService gen service) =
  collect f (registerFunc gen service (unaryMethods service)
               (streamMethods service)).
Proof.
  intros Hty Hclose Hi Hs Hci Hcs Hcm.
  rewrite collect_genService.
  rewrite (collect_clientInterfaceDecl gen service f _ _ Hci).
  rewrite !Hty, Hclose, Hcs.
  rewrite (flat_map_ext _ (fun _ => []) Hi), (flat_map_ext _ (fun _ => []) Hs),
    (flat_map_ext _ (fun _ => []) Hcm), !flat_map_nil.
  destruct (Nat.ltb 0 (List.length (streamMethods service)));
    cbn [app]; now rewrite ?app_nil_r.
Qed.

Lemma genService_registeredService :
  collect registeredService (genService gen service) =
  [ServiceDesc.FullName (Service.Desc service)].
Proof.
  rewrite collect_only_registerFunc.
  - apply registerFunc_service.
  - reflexivity.
  - reflexivity.
  - intros m. unfold interfaceLine. now destruct (interfaceArgs gen service m).
  - intros m. unfold serverStream. by_flags m.
  - intros m. unfold clientInterfaceLine. by_flags m.
  - reflexivity.
  - intros m. unfold clientMethod. by_flags m.
Qed.

Lemma genService_methodKeys :
  collect methodKey (genService gen service) =
  map Method.GoName (unaryMethods service).
Proof.
  rewrite collect_only_registerFunc.
  - apply registerFunc_methodKeys.
  - reflexivity.
  - reflexivity.
  - intros m. unfold interfaceLine. now destruct (interfaceArgs gen service m).
  - intros m. unfold serverStream. by_flags m.
  - intros m. unfold clientInterfaceLine. by_flags m.
  - reflexivity.
  - intros m. unfold clientMethod. by_flags m.
Qed.

Lemma genService_streamKeys :
  collect streamKey (genService gen service) =
  map Method.GoName (streamMethods service).
Proof.
  rewrite collect_only_registerFunc.
  - apply registerFunc_streamKeys.
  - reflexivity.
  - reflexivity.
  - intros m. unfold interfaceLine. now destruct (interfaceArgs gen service m).
  - intros m. unfold serverStream. by_flags m.
  - intros m. unfold clientInterfaceLine. by_flags m.
  - reflexivity.
  - intros m. unfold clientMethod. by_flags m.
Qed.

Lemma method_names_split :
  Permutation
    (map Method.GoName (unaryMethods service)
     ++ map Method.GoName (streamMethods service))
    (map Method.GoName (Service.Methods service)).
Proof.
  rewrite <- map_app. apply Permutation_map.
  unfold unaryMethods, streamMethods. apply filter_split_perm.
Qed.

End Registration.

(** C1, as the code has it.  In the generated code of a service there is
    exactly one call of RegisterService, and its key is the
    fully-qualified name of the service.  The keys of the Methods map are
    the Go names of the unary methods and the keys of the Streams map are
    the Go names of the streaming methods, each once and in order, so
    that every method of the service has exactly one entry, keyed by its
    unqualified Go name.  Two entries have the same key exactly when two
    methods of the service have the same Go name: the keys are pairwise
    distinct if and only if the Go names of the methods are. *)
Theorem registration_keys (gen : generator) (service : Service.t) :
  let p := genService gen service in
  collect registeredService p = [ServiceDesc.FullName (Service.Desc service)] /\
  collect methodKey p = map Method.GoName (unaryMethods service) /\
  collect streamKey p = map Method.GoName (streamMethods service) /\
  Permutation (collect methodKey p ++ collect streamKey p)
    (map Method.GoName (Service.Methods service)) /\
  (NoDup (collect methodKey p ++ collect streamKey p) <->
   NoDup (map Method.GoName (Service.Methods service))).
Proof.
  intros p. subst p.
  rewrite genService_registeredService, genService_methodKeys,
    genService_streamKeys.
  repeat split.
  - apply method_names_split.
  - apply Permutation_NoDup, method_names_split.
  - apply Permutation_NoDup, Permutation_sym, method_names_split.
Qed.

(** C1, as stated, fails.  The service Clash has the two unary methods
    [say] and [Say]: their names in the .proto file are distinct, both
    have the Go name [Say], and the Methods map of the registration
    function gets the key [Say] twice. *)
Lemma registration_keys_collide :
  let p := genService sampleGen clashService in
  NoDup (map (fun m => MethodDesc.Name (Method.Desc m))
           (Service.Methods clashService)) /\
  collect methodKey p = ["Say"; "Say"] /\
  ~ NoDup (collect methodKey p ++ collect streamKey p).
Proof.
  split; [|split].
  - repeat constructor; simpl; intuition discriminate.
  - reflexivity.
  - intros H. vm_compute in H.
    apply NoDup_cons_iff in H as [H _]. apply H. now left.
Qed.

(** ** Wrapper names *)

Lemma flat_map_filter {A B : Type} (f : A -> bool) (g : A -> B)
    (l : list A) :
  flat_map (fun a => if f a then [g a] else []) l = map g (filter f l).
Proof.
  induction l as [|a l IH]; simpl; [reflexivity|].
  destruct (f a); simpl; now rewrite IH.
Qed.

Lemma NoDup_map_filter {A B : Type} (h : A -> B) (f : A -> bool)
    (l : list A) :
  NoDup (map h l) -> NoDup (map h (filter f l)).
Proof.
  induction l as [|a l IH]; simpl; intros H; [constructor|].
  apply NoDup_cons_iff in H as [Hin Hnd].
  destruct (f a); simpl; [|now apply IH].
  constructor; [|now apply IH].
  intros Hin'. apply Hin.
  apply in_map_iff in Hin' as (b & Hb & Hbl).
  apply filter_In in Hbl as [Hbl _].
  rewrite <- Hb. now apply in_map.
Qed.

(** Names built from distinct keys by a function that is injective on
    the keys are distinct. *)
Lemma NoDup_map_through {A B C : Type} (h : A -> B) (g : A -> C)
    (l : list A) :
  (forall a b, g a = g b -> h a = h b) ->
  NoDup (map h l) -> NoDup (map g l).
Proof.
  intros Hinj. induction l as [|a l IH]; simpl; intros H; [constructor|].
  apply NoDup_cons_iff in H as [Hin Hnd].
  constructor; [|now apply IH].
  intros Hin'. apply Hin.
  apply in_map_iff in Hin' as (b & Hb & Hbl).
  rewrite <- (Hinj _ _ Hb). now apply in_map.
Qed.

Section Wrappers.

Variable gen : generator.
Variable service : Service.t.

Lemma registerFunc_wrapperStruct (methods streams : list Method.t) :
  collect wrapperStruct (registerFunc gen service methods streams) = [].
Proof.
  unfold registerFunc.
  assert (Hm : forall m, collect wrapperStruct (methodEntry gen m) = [])
    by reflexivity.
  assert (Hs : forall m, collect wrapperStruct (streamEntry gen service m)
                         = []).
  { intros m. unfold streamEntry. by_flags m. }
  rewrite !collect_app.
  destruct (Nat.ltb 0 (List.length methods)),
           (Nat.ltb 0 (List.length streams));
    rewrite ?collect_app,
      ?(collect_flat_map wrapperStruct _ (fun _ => []) methods Hm),
      ?(collect_flat_map wrapperStruct _ (fun _ => []) streams Hs),
      ?flat_map_nil; reflexivity.
Qed.

Lemma serverStream_wrapperStruct (m : Method.t) :
  collect wrapperStruct (serverStream gen service m) =
  [serverStructName service m].
Proof. unfold serverStream. by_flags m. Qed.

Lemma clientMethod_wrapperStruct (m : Method.t) :
  collect wrapperStruct (clientMethod gen service m) =
  if isStream m then [clientStructName service m] else [].
Proof. unfold clientMethod, isStream. by_flags m. Qed.

(** The wrapper structs declared in the whole output: the server-side
    wrappers of the streaming methods, then their client-side wrappers. *)
Lemma genService_wrapperStructs :
  collect wrapperStruct (genService gen service) =
  (map (serverStructName service) (streamMethods service)
   ++ map (clientStructName service) (streamMethods service))%list.
Proof.
  rewrite collect_genService.
  rewrite (collect_clientInterfaceDecl gen service wrapperStruct).
  2:{ intros m. unfold clientInterfaceLine. by_flags m. }
  rewrite registerFunc_wrapperStruct.
  rewrite (flat_map_ext _ (fun _ => [])).
  2:{ intros m. unfold interfaceLine.
      now destruct (interfaceArgs gen service m). }
  rewrite (flat_map_ext _ _ serverStream_wrapperStruct), flat_map_singleton.
  rewrite (flat_map_ext _ _ clientMethod_wrapperStruct), flat_map_filter.
  rewrite flat_map_nil.
  destruct (Nat.ltb 0 (List.length (streamMethods service)));
    cbn [app collect]; simpl; now rewrite ?app_nil_r.
Qed.

End Wrappers.

(** C9, as the code has it.  The wrapper structs declared in the
    generated code of a service are, for every streaming method in order,
    one server-side struct named lowercase(service name) + method Go name
    + "Server" and one client-side struct named lowercase(service name) +
    method Go name + "Client".  Two of these structs have the same name
    exactly when two streaming methods of the service have the same Go
    name: the struct names are pairwise distinct if and only if the Go
    names of the streaming methods are. *)
Theorem wrapper_struct_names (gen : generator) (service : Service.t) :
  collect wrapperStruct (genService gen service) =
  (map (fun m => (ToLower (Service.GoName service) ++ Method.GoName m
                  ++ "Server")%string) (streamMethods service)
   ++ map (fun m => (ToLower (Service.GoName service) ++ Method.GoName m
                     ++ "Client")%string) (streamMethods service))%list /\
  (NoDup (collect wrapperStruct (genService gen service)) <->
   NoDup (map Method.GoName (streamMethods service))).
Proof.
  rewrite genService_wrapperStructs. split; [reflexivity|]. split.
  - intros H. apply NoDup_app_remove_r in H. revert H.
    apply NoDup_map_through. intros a b Hab.
    unfold serverStructName. now rewrite Hab.
  - intros Hs. apply NoDup_app.
    + revert Hs. apply NoDup_map_through. intros a b H.
      unfold serverStructName in H.
      now apply wrapper_name_inj in H as [H _].
    + revert Hs. apply NoDup_map_through. intros a b H.
      unfold clientStructName in H.
      now apply wrapper_name_inj in H as [H _].
    + intros n Hin Hin'.
      apply in_map_iff in Hin as (a & Ha & _).
      apply in_map_iff in Hin' as (b & Hb & _).
      rewrite <- Hb in Ha. unfold serverStructName, clientStructName in Ha.
      apply wrapper_name_inj in Ha as [_ Ha]; [discriminate | reflexivity].
Qed.

(** C9, as stated, fails.  The service Dup has the two streaming methods
    [get_all] and [GetAll]: their names in the .proto file are distinct,
    both have the Go name [GetAll], and the generated code declares the
    server-side wrapper dupGetAllServer twice and the client-side wrapper
    dupGetAllClient twice. *)
Lemma wrapper_struct_names_collide :
  let p := genService sampleGen dupService in
  NoDup (map (fun m => MethodDesc.Name (Method.Desc m))
           (Service.Methods dupService)) /\
  collect wrapperStruct p =
    ["dupGetAllServer"; "dupGetAllServer";
     "dupGetAllClient"; "dupGetAllClient"] /\
  ~ NoDup (collect wrapperStruct p).
Proof.
  split; [|split].
  - repeat constructor; simpl; intuition discriminate.
  - reflexivity.
  - intros H. vm_compute in H.
    apply NoDup_cons_iff in H as [H _]. apply H. now left.
Qed.

(** ** Where the blocks of a method occur *)

Section Occurrences.

Variable gen : generator.
Variable service : Service.t.

Lemma In_streamMethods (m : Method.t) :
  In m (Service.Methods service) -> isStream m = true ->
  In m (streamMethods service).
Proof. intros Hin Hs. apply filter_In. now split. Qed.

Lemma In_unaryMethods (m : Method.t) :
  In m (Service.Methods service) -> isStream m = false ->
  In m (unaryMethods service).
Proof. intros Hin Hs. apply filter_In. split; [exact Hin | now rewrite Hs]. Qed.


Lemma serverStream_occurs (m : Method.t) :
  In m (streamMethods service) ->
  occursIn (serverStream gen service m) (genService gen service).
Proof.
  intros Hin. rewrite genService_sections.
  do 4 apply occursIn_app_r. apply occursIn_app_l.
  now apply occursIn_flat_map.
Qed.

Lemma registerFunc_occurs :
  occursIn
    (registerFunc gen service (unaryMethods service) (streamMethods service))
    (genService gen service).
Proof.
  rewrite genService_sections.
  do 5 apply occursIn_app_r. apply occursIn_app_l, occursIn_refl.
Qed.

Lemma clientStruct_occurs :
  occursIn
    (clientStruct gen service
       (fst (clientInterfaceDecl gen service (unaryMethods service)
               (streamMethods service))))
    (genService gen service).
Proof.
  rewrite genService_sections.
  do 7 apply occursIn_app_r. apply occursIn_app_l, occursIn_refl.
Qed.

Lemma clientMethod_occurs (m : Method.t) :
  In m (Service.Methods service) ->
  occursIn (clientMethod gen service m) (genService gen service).
Proof.
  intros Hin. rewrite genService_sections.
  do 8 apply occursIn_app_r. now apply occursIn_flat_map.
Qed.

Lemma methodEntry_occurs (methods streams : list Method.t) (m : Method.t) :
  In m methods ->
  occursIn (methodEntry gen m) (registerFunc gen service methods streams).
Proof.
  intros Hin. unfold registerFunc.
  destruct methods as [|m0 methods']; [destruct Hin|].
  cbn [List.length Nat.ltb Nat.leb].
  do 2 apply occursIn_app_r. apply occursIn_app_l.
  apply occursIn_app_r, occursIn_app_l. now apply occursIn_flat_map.
Qed.

Lemma streamEntry_occurs (methods streams : list Method.t) (m : Method.t) :
  In m streams ->
  occursIn (streamEntry gen service m)
    (registerFunc gen service methods streams).
Proof.
  intros Hin. unfold registerFunc.
  destruct streams as [|m0 streams']; [destruct Hin|].
  cbn [List.length Nat.ltb Nat.leb].
  do 3 apply occursIn_app_r. apply occursIn_app_l.
  apply occursIn_app_r, occursIn_app_l. now apply occursIn_flat_map.
Qed.

End Occurrences.

(** ** Stream wrappers *)



(** ** Handlers of the registration function *)

(** Proves that a text occurs in the output of genService from the block
    of [P] calls that prints it: the block occurs in the output, and its
    text is the one stated. *)
Ltac text_of_block gen blk Hocc :=
  match goal with
  | |- occursIn ?t _ =>
      replace t with (Content (out gen) blk);
      [ apply occursIn_map; exact Hocc | ]
  end.

(** C6. For a unary method of a service, the generated code contains the
    entry of the Methods map keyed by the method, whose closure reads,
    statement by statement: declare [req] of the Input type; decode into
    it and, when decoding fails, return nil and the decode error;
    otherwise return what the method of the service interface returns for
    the decoded request, result and error as they are.  The closure has
    no other statement. *)
Theorem unary_handler_closure (gen : generator) (service : Service.t)
    (m : Method.t)
    (Hin : In m (Service.Methods service)) (Hunary : isStream m = false) :
  occursIn
    [dq ++ Method.GoName m ++ dq ++ ": func(ctx " ++ context (ident gen)
       ++ ", unmarshal func(interface{}) error)(interface{}, error){";
     "var req " ++ QualifiedGoIdent (out gen) (inputIdent m);
     "if err := unmarshal(&req); err != nil {";
     "return nil, err";
     "}";
     "return svc." ++ Method.GoName m ++ "(ctx, &req)";
     "},"]
    (Content (out gen) (genService gen service)).
Proof.
  assert (Hocc : occursIn (methodEntry gen m) (genService gen service)).
  { eapply occursIn_trans; [|apply registerFunc_occurs].
    apply methodEntry_occurs, In_unaryMethods; assumption. }
  text_of_block gen (methodEntry gen m) Hocc.
  simpl. str_norm. reflexivity.
Qed.

Lemma unary_handler_closure_witness :
  In sayMethod (Service.Methods mixedService) /\
  isStream sayMethod = false /\
  occursIn
    [dq ++ "Say" ++ dq ++ ": func(ctx context.Context"
       ++ ", unmarshal func(interface{}) error)(interface{}, error){";
     "var req EchoRequest";
     "if err := unmarshal(&req); err != nil {";
     "return nil, err";
     "}";
     "return svc.Say(ctx, &req)";
     "},"]
    (Content sampleFile (genService sampleGen mixedService)).
Proof.
  assert (Hin : In sayMethod (Service.Methods mixedService))
    by (simpl; tauto).
  assert (Hu : isStream sayMethod = false) by reflexivity.
  split; [exact Hin|]. split; [exact Hu|].
  apply (unary_handler_closure sampleGen mixedService sayMethod Hin Hu).
Defined.

(** C5. For a streaming method of a service, the generated code contains
    the entry of the Streams map keyed by the method.  Its
    StreamingClient and StreamingServer fields are the two flags of the
    method.  When clientStreaming is false its handler first makes one
    message of the Input type, receives into it once from the stream and
    returns nil and the error when that fails, and only then calls the
    method of the service interface with the message and the wrapper
    built over the stream; when clientStreaming is true the handler is
    the call alone, with the wrapper and no message, and nothing is
    received before it. *)
Theorem stream_handler_entry (gen : generator) (service : Service.t)
    (m : Method.t)
    (Hin : In m (Service.Methods service)) (Hstream : isStream m = true) :
  occursIn
    (app
       [dq ++ Method.GoName m ++ dq ++ ": {";
        "Handler: func(ctx " ++ context (ident gen) ++ ", stream "
          ++ streamServer (ident gen) ++ ") (interface{}, error) {"]
       (app
          (if streamingClient m then []
           else ["m := new(" ++ QualifiedGoIdent (out gen) (inputIdent m)
                   ++ ")";
                 "if err := stream.RecvMsg(m); err != nil {";
                 "return nil, err";
                 "}"])
          [(if streamingServer m then "return nil, svc." else "return svc.")
             ++ Method.GoName m ++ "(ctx, "
             ++ (if streamingClient m then EmptyString else "m, ")
             ++ "&" ++ ToLower (Service.GoName service) ++ Method.GoName m
             ++ "Server" ++ "{stream})";
           "},";
           "StreamingClient: " ++ goBool (streamingClient m) ++ ",";
           "StreamingServer: " ++ goBool (streamingServer m) ++ ",";
           "},"]))
    (Content (out gen) (genService gen service)).
Proof.
  assert (Hocc : occursIn (streamEntry gen service m)
                   (genService gen service)).
  { eapply occursIn_trans; [|apply registerFunc_occurs].
    apply streamEntry_occurs, In_streamMethods; assumption. }
  text_of_block gen (streamEntry gen service m) Hocc.
  unfold streamEntry, serverStructName.
  destruct (streamingClient m), (streamingServer m);
    simpl; str_norm; reflexivity.
Qed.

Lemma stream_handler_entry_witness :
  In getMethod (Service.Methods mixedService) /\
  isStream getMethod = true /\
  occursIn
    [dq ++ "Get" ++ dq ++ ": {";
     "Handler: func(ctx context.Context, stream ttrpc.StreamServer) (interface{}, error) {";
     "m := new(Req)";
     "if err := stream.RecvMsg(m); err != nil {";
     "return nil, err";
     "}";
     "return nil, svc.Get(ctx, m, &storeGetServer{stream})";
     "},";
     "StreamingClient: false,";
     "StreamingServer: true,";
     "},"]
    (Content sampleFile (genService sampleGen mixedService)).
Proof.
  assert (Hin : In getMethod (Service.Methods mixedService))
    by (simpl; tauto).
  assert (Hs : isStream getMethod = true) by reflexivity.
  split; [exact Hin|]. split; [exact Hs|].
  apply (stream_handler_entry sampleGen mixedService getMethod Hin Hs).
Defined.

(** ** Client methods *)

(** C7. For a streaming method of a service, the generated code contains
    the client method whose body reads, statement by statement: open a
    stream with NewStream, passing a StreamDesc whose StreamingClient and
    StreamingServer fields are the two flags of the method, the
    fully-qualified service name, the method name and, as the request,
    [req] when clientStreaming is false and nil when it is true; when
    NewStream fails return nil and the error; otherwise build the typed
    client-stream wrapper over the stream and return it with a nil
    error. *)
Theorem client_stream_call (gen : generator) (service : Service.t)
    (m : Method.t)
    (Hin : In m (Service.Methods service)) (Hstream : isStream m = true) :
  occursIn
    ["func (c *" ++ clientStructType service ++ ") " ++ Method.GoName m
       ++ "(ctx " ++ context (ident gen)
       ++ (if streamingClient m then EmptyString
           else ", req *" ++ QualifiedGoIdent (out gen) (inputIdent m))
       ++ ") (" ++ Service.GoName service ++ "_" ++ Method.GoName m
       ++ "Client, error) {";
     "stream, err := c.client.NewStream(ctx, &" ++ streamDesc (ident gen)
       ++ "{";
     "StreamingClient: " ++ goBool (streamingClient m) ++ ",";
     "StreamingServer: " ++ goBool (streamingServer m) ++ ",";
     "}, " ++ dq ++ ServiceDesc.FullName (Service.Desc service) ++ dq
       ++ ", " ++ dq ++ Method.GoName m ++ dq ++ ", "
       ++ (if streamingClient m then "nil" else "req") ++ ")";
     "if err != nil {";
     "return nil, err";
     "}";
     "x := &" ++ ToLower (Service.GoName service) ++ Method.GoName m
       ++ "Client" ++ "{stream}";
     "return x, nil";
     "}"]
    (Content (out gen) (genService gen service)).
Proof.
  pose proof (occursIn_map (printLine (out gen)) _ _
                (clientMethod_occurs gen service m Hin)) as Hocc.
  fold (Content (out gen) (clientMethod gen service m)) in Hocc.
  fold (Content (out gen) (genService gen service)) in Hocc.
  unfold isStream in Hstream. unfold clientMethod, clientStructName in Hocc.
  destruct (streamingClient m), (streamingServer m);
    try discriminate Hstream;
    simpl in Hocc; revert Hocc; str_norm;
    match goal with
    | |- occursIn ?l _ -> occursIn ?t _ =>
        change l with (t ++ skipn (List.length t) l)%list
    end;
    apply occursIn_head.
Qed.

Lemma client_stream_call_witness :
  In getMethod (Service.Methods mixedService) /\
  isStream getMethod = true /\
  occursIn
    ["func (c *storeClient) Get(ctx context.Context, req *Req) (Store_GetClient, error) {";
     "stream, err := c.client.NewStream(ctx, &ttrpc.StreamDesc{";
     "StreamingClient: false,";
     "StreamingServer: true,";
     "}, " ++ dq ++ "example.Store" ++ dq ++ ", " ++ dq ++ "Get" ++ dq
       ++ ", req)";
     "if err != nil {";
     "return nil, err";
     "}";
     "x := &storeGetClient{stream}";
     "return x, nil";
     "}"]
    (Content sampleFile (genService sampleGen mixedService)).
Proof.
  assert (Hin : In getMethod (Service.Methods mixedService))
    by (simpl; tauto).
  assert (Hs : isStream getMethod = true) by reflexivity.
  split; [exact Hin|]. split; [exact Hs|].
  apply (client_stream_call sampleGen mixedService getMethod Hin Hs).
Defined.

(** ** Services without streaming methods *)

Section ClientInterface.

Variable gen : generator.
Variable service : Service.t.

Lemma registerFunc_interfaceDecl (methods streams : list Method.t) :
  collect interfaceDecl (registerFunc gen service methods streams) = [].
Proof.
  unfold registerFunc.
  assert (Hm : forall m, collect interfaceDecl (methodEntry gen m) = [])
    by reflexivity.
  assert (Hs : forall m, collect interfaceDecl (streamEntry gen service m)
                         = []).
  { intros m. unfold streamEntry. by_flags m. }
  rewrite !collect_app.
  destruct (Nat.ltb 0 (List.length methods)),
           (Nat.ltb 0 (List.length streams));
    rewrite ?collect_app,
      ?(collect_flat_map interfaceDecl _ (fun _ => []) methods Hm),
      ?(collect_flat_map interfaceDecl _ (fun _ => []) streams Hs),
      ?flat_map_nil; reflexivity.
Qed.

(** The interfaces declared for the service and its client in the whole
    output: the service interface, and a client interface exactly when
    [streams] is not empty. *)
Lemma genService_interfaceDecls :
  collect interfaceDecl (genService gen service) =
  (Service.GoName service ++ "Service")
    :: (if Nat.ltb 0 (List.length (streamMethods service))
        then [clientType service] else []).
Proof.
  rewrite collect_genService.
  rewrite (collect_clientInterfaceDecl gen service interfaceDecl).
  2:{ intros m. unfold clientInterfaceLine. by_flags m. }
  rewrite registerFunc_interfaceDecl.
  rewrite (flat_map_ext
             (fun m => collect interfaceDecl (interfaceLine gen service m))
             (fun _ => [])).
  2:{ intros m. unfold interfaceLine.
      now destruct (interfaceArgs gen service m). }
  rewrite (flat_map_ext
             (fun m => collect interfaceDecl (serverStream gen service m))
             (fun _ => [])).
  2:{ intros m. unfold serverStream. by_flags m. }
  rewrite (flat_map_ext (fun m => collect interfaceDecl (clientMethod _ _ m))
             (fun _ => [])).
  2:{ intros m. unfold clientMethod. by_flags m. }
  rewrite !flat_map_nil.
  destruct (Nat.ltb 0 (List.length (streamMethods service))); reflexivity.
Qed.


End ClientInterface.



(** ** Method names on the two sides *)

Section MethodNames.

Variable gen : generator.
Variable service : Service.t.

(** The method name a client method passes to the transport: a unary
    method passes the name of the method as written in the .proto file to
    Call, a streaming method passes its Go name to NewStream. *)
Lemma clientMethod_callMethodName (m : Method.t) :
  collect callMethodName (clientMethod gen service m) =
  if isStream m then [] else [MethodDesc.Name (Method.Desc m)].
Proof. unfold clientMethod, isStream. by_flags m. Qed.

Lemma clientMethod_newStreamMethodArg (m : Method.t) :
  collect newStreamMethodArg (clientMethod gen service m) =
  if isStream m then [quotedArg (Method.GoName m)] else [].
Proof. unfold clientMethod, isStream. by_flags m. Qed.

End MethodNames.

(** C3, at a service whose unary method is written [say] in the .proto
    file and has the Go name [Say]: the registration function registers
    the method under the key [Say], and the client method passes [say] to
    Call.  The two names differ. *)
Theorem unary_call_name_differs_from_key :
  collect methodKey (genService sampleGen greeterService) = ["Say"] /\
  collect callMethodName (clientMethod sampleGen greeterService lowerSayMethod)
    = ["say"] /\
  In ("if err := c.client.Call(ctx, " ++ dq ++ "example.Greeter" ++ dq
        ++ ", " ++ dq ++ "say" ++ dq ++ ", req, &resp); err != nil {")
     (Content sampleFile (genService sampleGen greeterService)) /\
  "say" <> "Say".
Proof.
  repeat split; try reflexivity.
  - vm_compute. tauto.
  - discriminate.
Qed.

(** ** The scenarios of the specification *)

(** Service Echo with the unary method Say: the service interface, the
    key of the Methods map and the method name of the client call. *)
Example echo_scenario :
  let p := genService sampleGen echoService in
  In "type EchoService interface{" (Content sampleFile p) /\
  In "Say(context.Context, *EchoRequest) (*EchoResponse, error)"
     (Content sampleFile p) /\
  In "func RegisterEchoService(srv *ttrpc.Server, svc EchoService){"
     (Content sampleFile p) /\
  collect methodKey p = ["Say"] /\
  collect streamKey p = [] /\
  collect callMethodName (clientMethod sampleGen echoService sayMethod)
    = ["Say"].
Proof. vm_compute. intuition. Qed.

(** Service Chat with the bidirectional method Talk. *)
Example chat_scenario :
  let p := genService sampleGen chatService in
  let srv := serverStream sampleGen chatService talkMethod in
  let cli := clientMethod sampleGen chatService talkMethod in
  In "type Chat_TalkServer interface {" (Content sampleFile p) /\
  In "type Chat_TalkClient interface {" (Content sampleFile p) /\
  declares "Send" srv = true /\ declares "Recv" srv = true /\
  declares "Send" cli = true /\ declares "Recv" cli = true /\
  declares "CloseAndRecv" cli = false /\
  collect streamKey p = ["Talk"] /\
  In "StreamingClient: true," (Content sampleFile p) /\
  In "StreamingServer: true," (Content sampleFile p).
Proof. vm_compute. intuition. Qed.

(** Service Upload with the client-streaming method Put. *)
Example upload_scenario :
  let cli := clientMethod sampleGen uploadService putMethod in
  In "func (c *uploadClient) Put(ctx context.Context) (Upload_PutClient, error) {"
     (Content sampleFile cli) /\
  declares "Send" cli = true /\
  declares "CloseAndRecv" cli = true /\
  declares "Recv" cli = false.
Proof. vm_compute. intuition. Qed.

Example ToLower_example : ToLower "EchoService_2" = "echoservice_2".
Proof. reflexivity. Qed.

(** * Further properties of the generator *)

(** ** Reading the whole output, block by block *)

Lemma map_flat_map {A B C : Type} (f : B -> C) (g : A -> list B)
    (l : list A) :
  map f (flat_map g l) = flat_map (fun a => map f (g a)) l.
Proof.
  induction l as [|a l IH]; simpl; [reflexivity|].
  now rewrite map_app, IH.
Qed.

Lemma flat_map_filter_neg {A B : Type} (f : A -> bool) (g : A -> B)
    (l : list A) :
  flat_map (fun a => if f a then [] else [g a]) l =
  map g (filter (fun a => negb (f a)) l).
Proof.
  induction l as [|a l IH]; simpl; [reflexivity|].
  destruct (f a); simpl; now rewrite IH.
Qed.

Section Blocks.

Variable gen : generator.
Variable service : Service.t.

(** What a recogniser finds in the registration function is what it finds
    in its lines and entries, in order. *)
Lemma collect_registerFunc {A : Type} (f : line -> option A)
    (methods streams : list Method.t) :
  collect f (registerFunc gen service methods streams) =
  (collect f
     (P [Str "func Register"; Str (Service.GoName service ++ "Service");
         Str "(srv *"; Str (server (ident gen)); Str ", svc ";
         Str (Service.GoName service ++ "Service"); Str "){"])
   ++ collect f
        (P [Str ("srv.RegisterService(" ++ dq);
            Str (ServiceDesc.FullName (Service.Desc service));
            Str (dq ++ ", &"); Str (serviceDesc (ident gen)); Str "{"])
   ++ (if Nat.ltb 0 (List.length methods)
       then collect f (P [Str "Methods: map[string]";
                          Str (method (ident gen)); Str "{"])
            ++ flat_map (fun m => collect f (methodEntry gen m)) methods
            ++ collect f (P [Str "},"])
       else [])
   ++ (if Nat.ltb 0 (List.length streams)
       then collect f (P [Str "Streams: map[string]";
                          Str (stream (ident gen)); Str "{"])
            ++ flat_map (fun m => collect f (streamEntry gen service m))
                 streams
            ++ collect f (P [Str "},"])
       else [])
   ++ collect f (P [Str "})"] ++ P [Str "}"] ++ P []))%list.
Proof.
  unfold registerFunc. rewrite !collect_app.
  destruct (Nat.ltb 0 (List.length methods)),
           (Nat.ltb 0 (List.length streams));
    rewrite ?collect_app,
      ?(collect_flat_map f _ (fun m => collect f (_ m))) by reflexivity;
    now rewrite <- ?app_assoc.
Qed.

End Blocks.

(** Splits what a recogniser finds in the output of genService into what
    it finds in each block. *)
Ltac by_blocks gen service f :=
  rewrite collect_genService, collect_registerFunc;
  rewrite (collect_clientInterfaceDecl gen service f)
    by (let m := fresh "m" in
        intros m; unfold clientInterfaceLine; by_flags m);
  rewrite (flat_map_ext
             (fun m => collect f (interfaceLine gen service m))
             (fun _ => []))
    by (let m := fresh "m" in
        intros m; unfold interfaceLine;
        now destruct (interfaceArgs gen service m));
  rewrite ?flat_map_nil.

(** A recogniser that finds nothing in a kind of block. *)
Ltac no_methodEntry gen f :=
  rewrite (flat_map_ext (fun m => collect f (methodEntry gen m))
             (fun _ => [])) by reflexivity;
  rewrite ?flat_map_nil.
Ltac no_streamEntry gen service f :=
  rewrite (flat_map_ext (fun m => collect f (streamEntry gen service m))
             (fun _ => []))
    by (let m := fresh "m" in intros m; unfold streamEntry; by_flags m);
  rewrite ?flat_map_nil.
Ltac no_serverStream gen service f :=
  rewrite (flat_map_ext (fun m => collect f (serverStream gen service m))
             (fun _ => []))
    by (let m := fresh "m" in intros m; unfold serverStream; by_flags m);
  rewrite ?flat_map_nil.
Ltac no_clientMethod gen service f :=
  rewrite (flat_map_ext (fun m => collect f (clientMethod gen service m))
             (fun _ => []))
    by (let m := fresh "m" in intros m; unfold clientMethod; by_flags m);
  rewrite ?flat_map_nil.

(** Closes the equation once every block is read. *)
Ltac by_slices service :=
  rewrite ?flat_map_nil;
  destruct (unaryMethods service), (streamMethods service);
  simpl; rewrite ?app_nil_r; reflexivity.

Section WholeOutput.

Variable gen : generator.
Variable service : Service.t.

Lemma genService_mapHeaders :
  collect mapHeader (genService gen service) =
  ((match unaryMethods service with [] => [] | _ => ["Methods"] end)
   ++ (match streamMethods service with [] => [] | _ => ["Streams"] end))%list.
Proof.
  by_blocks gen service mapHeader.
  no_methodEntry gen mapHeader. no_streamEntry gen service mapHeader.
  no_serverStream gen service mapHeader.
  no_clientMethod gen service mapHeader.
  by_slices service.
Qed.

Lemma genService_callMethodNames :
  collect callMethodName (genService gen service) =
  map (fun m => MethodDesc.Name (Method.Desc m)) (unaryMethods service).
Proof.
  by_blocks gen service callMethodName.
  no_methodEntry gen callMethodName.
  no_streamEntry gen service callMethodName.
  no_serverStream gen service callMethodName.
  rewrite (flat_map_ext _ _ (clientMethod_callMethodName gen service)).
  rewrite flat_map_filter_neg. fold (unaryMethods service).
  by_slices service.
Qed.

Lemma genService_newStreamMethodArgs :
  collect newStreamMethodArg (genService gen service) =
  map (fun m => quotedArg (Method.GoName m)) (streamMethods service).
Proof.
  by_blocks gen service newStreamMethodArg.
  no_methodEntry gen newStreamMethodArg.
  no_streamEntry gen service newStreamMethodArg.
  no_serverStream gen service newStreamMethodArg.
  rewrite (flat_map_ext _ _ (clientMethod_newStreamMethodArg gen service)).
  rewrite flat_map_filter. fold (streamMethods service).
  by_slices service.
Qed.

Lemma genService_clientMethodNames :
  collect clientMethodName (genService gen service) =
  map (fun m => (clientStructType service, Method.GoName m))
    (Service.Methods service).
Proof.
  by_blocks gen service clientMethodName.
  no_methodEntry gen clientMethodName.
  no_streamEntry gen service clientMethodName.
  no_serverStream gen service clientMethodName.
  rewrite (flat_map_ext
             (fun m => collect clientMethodName (clientMethod gen service m))
             (fun m => [(clientStructType service, Method.GoName m)]))
    by (intros m; unfold clientMethod; by_flags m).
  rewrite flat_map_singleton.
  by_slices service.
Qed.

Lemma genService_serverStreamInterfaces :
  collect serverStreamInterface (genService gen service) =
  map (fun m => Service.GoName service ++ "_" ++ Method.GoName m ++ "Server")
    (streamMethods service).
Proof.
  by_blocks gen service serverStreamInterface.
  no_methodEntry gen serverStreamInterface.
  no_streamEntry gen service serverStreamInterface.
  no_clientMethod gen service serverStreamInterface.
  rewrite (flat_map_ext
             (fun m => collect serverStreamInterface
                         (serverStream gen service m))
             (fun m => [Service.GoName service ++ "_" ++ Method.GoName m
                        ++ "Server"]))
    by (intros m; unfold serverStream; by_flags m).
  rewrite flat_map_singleton.
  by_slices service.
Qed.

Lemma genService_clientStreamInterfaces :
  collect clientStreamInterface (genService gen service) =
  map (fun m => Service.GoName service ++ "_" ++ Method.GoName m ++ "Client")
    (streamMethods service).
Proof.
  by_blocks gen service clientStreamInterface.
  no_methodEntry gen clientStreamInterface.
  no_streamEntry gen service clientStreamInterface.
  no_serverStream gen service clientStreamInterface.
  rewrite (flat_map_ext
             (fun m => collect clientStreamInterface
                         (clientMethod gen service m))
             (fun m => if isStream m
                       then [Service.GoName service ++ "_" ++ Method.GoName m
                             ++ "Client"]
                       else []))
    by (intros m; unfold clientMethod, isStream; by_flags m).
  rewrite flat_map_filter. fold (streamMethods service).
  by_slices service.
Qed.

Lemma genService_clientWrapperUses :
  collect clientWrapperUse (genService gen service) =
  map (clientStructName service) (streamMethods service).
Proof.
  by_blocks gen service clientWrapperUse.
  no_methodEntry gen clientWrapperUse.
  no_streamEntry gen service clientWrapperUse.
  no_serverStream gen service clientWrapperUse.
  rewrite (flat_map_ext
             (fun m => collect clientWrapperUse (clientMethod gen service m))
             (fun m => if isStream m then [clientStructName service m]
                       else []))
    by (intros m; unfold clientMethod, isStream; by_flags m).
  rewrite flat_map_filter. fold (streamMethods service).
  by_slices service.
Qed.

Lemma registerFunc_handlerWrappers (methods streams : list Method.t) :
  collect handlerWrapper (registerFunc gen service methods streams) =
  map (serverStructName service) streams.
Proof.
  rewrite collect_registerFunc.
  no_methodEntry gen handlerWrapper.
  rewrite (flat_map_ext
             (fun m => collect handlerWrapper (streamEntry gen service m))
             (fun m => [serverStructName service m]))
    by (intros m; unfold streamEntry; by_flags m).
  rewrite flat_map_singleton, ?flat_map_nil.
  destruct methods, streams; simpl; rewrite ?app_nil_r; reflexivity.
Qed.

End WholeOutput.

(** ** The file driver *)

(** X1. The text generate prints into the file is the three header lines
    (the generated-code notice, the path of the source file, the package
    clause) followed by the code of every service of the file, in order,
    each generated by genService with the one generator made for the
    file.  A file without services gets the header alone. *)
Theorem generate_content (out : GeneratedFile) (input : File.t) :
  Content out (generate out input) =
  app
    ["// Code generated by protoc-gen-go-ttrpc. DO NOT EDIT.";
     "// source: " ++ File.Path input;
     "package " ++ File.GoPackageName input]
    (flat_map
       (fun service => Content out (genService (newGenerator out) service))
       (File.Services input)).
Proof.
  unfold generate. rewrite fold_left_seq, Content_app.
  unfold Content at 2. rewrite map_flat_map. reflexivity.
Qed.

(** ** Edge cases of a service *)

(** X2. For a service without methods, genService prints exactly: an
    empty service interface; a registration function that registers the
    fully-qualified service name with a service description that has
    neither a Methods nor a Streams map; no client interface; the client
    struct; and a constructor that returns the service interface.  No
    client method and no stream type is printed. *)
Theorem empty_service_output (gen : generator) (service : Service.t)
    (Hempty : Service.Methods service = []) :
  Content (out gen) (genService gen service) =
  ["type " ++ Service.GoName service ++ "Service interface{";
   "}";
   EmptyString;
   "func Register" ++ Service.GoName service ++ "Service(srv *"
     ++ server (ident gen) ++ ", svc " ++ Service.GoName service
     ++ "Service){";
   "srv.RegisterService(" ++ dq
     ++ ServiceDesc.FullName (Service.Desc service) ++ dq ++ ", &"
     ++ serviceDesc (ident gen) ++ "{";
   "})";
   "}";
   EmptyString;
   "type " ++ clientStructType service ++ " struct{";
   "client *" ++ client (ident gen);
   "}";
   "func New" ++ Service.GoName service ++ "Client(client *"
     ++ client (ident gen) ++ ")" ++ Service.GoName service ++ "Service{";
   "return &" ++ clientStructType service ++ "{";
   "client:client,";
   "}";
   "}";
   EmptyString].
Proof.
  rewrite genService_sections, clientInterfaceDecl_eq.
  unfold streamMethods, unaryMethods, registerFunc, clientStruct, clientType.
  rewrite Hempty. simpl. str_norm. reflexivity.
Qed.

Lemma empty_service_output_witness :
  Service.Methods emptyService = [] /\
  Content sampleFile (genService sampleGen emptyService) =
  ["type EmptyService interface{";
   "}";
   EmptyString;
   "func RegisterEmptyService(srv *ttrpc.Server, svc EmptyService){";
   "srv.RegisterService(" ++ dq ++ "example.Empty" ++ dq
     ++ ", &ttrpc.ServiceDesc{";
   "})";
   "}";
   EmptyString;
   "type emptyClient struct{";
   "client *ttrpc.Client";
   "}";
   "func NewEmptyClient(client *ttrpc.Client)EmptyService{";
   "return &emptyClient{";
   "client:client,";
   "}";
   "}";
   EmptyString].
Proof.
  assert (H : Service.Methods emptyService = []) by reflexivity.
  split; [exact H | apply (empty_service_output sampleGen emptyService H)].
Defined.

(** X3. The service description printed by the registration function
    opens a Methods map exactly when the service has a unary method and a
    Streams map exactly when it has a streaming method, the Methods map
    first; no other place of the generated code opens such a map. *)
Theorem service_description_maps (gen : generator) (service : Service.t) :
  collect mapHeader (genService gen service) =
  ((match unaryMethods service with [] => [] | _ => ["Methods"] end)
   ++ (match streamMethods service with [] => [] | _ => ["Streams"] end))%list
  /\
  collect mapHeader
    (registerFunc gen service (unaryMethods service) (streamMethods service))
  = collect mapHeader (genService gen service).
Proof.
  split; [apply genService_mapHeaders|].
  rewrite genService_mapHeaders, collect_registerFunc.
  no_methodEntry gen mapHeader. no_streamEntry gen service mapHeader.
  destruct (unaryMethods service), (streamMethods service); reflexivity.
Qed.

(** X14. The name of the client struct is the client type name with its
    first character in lower case and the rest as it is: for a service
    whose Go name is the character [c] followed by [rest] it is the lower
    case of [c], then [rest], then "Client"; for an empty Go name it is
    "client". *)
Theorem clientStructType_lowers_first (service : Service.t) :
  clientStructType service =
  match Service.GoName service with
  | EmptyString => "client"
  | String c rest => String (lowerAscii c) (rest ++ "Client")
  end.
Proof.
  assert (Hall : forall s, substring 0 (String.length s) s = s).
  { induction s as [|x s IH]; simpl; [reflexivity | now rewrite IH]. }
  unfold clientStructType, clientType, slice_to_1, slice_from_1.
  destruct (Service.GoName service) as [|c rest]; [reflexivity|].
  cbn [append String.length substring Nat.sub].
  rewrite Nat.sub_0_r, Hall.
  destruct (rest ++ "Client"); reflexivity.
Qed.

(** ** The client interface of a streaming service *)

Section ClientInterfaceBlock.

Variable gen : generator.
Variable service : Service.t.

Lemma clientInterface_occurs :
  streamMethods service <> [] ->
  occursIn
    (P [Str "type "; Str (clientType service); Str " interface{"]
     ++ flat_map (clientInterfaceLine gen service) (Service.Methods service)
     ++ P [Str "}"] ++ P [])%list
    (genService gen service)
  /\ fst (clientInterfaceDecl gen service (unaryMethods service)
            (streamMethods service)) = clientType service.
Proof.
  intros Hne. rewrite genService_sections, clientInterfaceDecl_eq.
  destruct (streamMethods service) as [|m0 l]; [contradiction|].
  cbn [List.length Nat.ltb Nat.leb fst snd]. split; [|reflexivity].
  do 6 apply occursIn_app_r. apply occursIn_app_l, occursIn_refl.
Qed.

End ClientInterfaceBlock.

(** X4. For a service with at least one streaming method, the generated
    code declares a separate client interface named after the service
    with the suffix "Client".  It lists every method of the service once,
    in order: a streaming method takes the context and, when
    clientStreaming is false, the request, and returns the typed
    client-stream interface and an error; a unary method keeps its
    signature.  The constructor of the client returns this interface, and
    the service interface and it are the only two interfaces declared for
    the service. *)
Theorem client_interface_with_streams (gen : generator) (service : Service.t)
    (Hstreams : streamMethods service <> []) :
  let text := Content (out gen) (genService gen service) in
  occursIn
    (app
       ["type " ++ Service.GoName service ++ "Client interface{"]
       (app
          (map
             (fun m =>
                if isStream m
                then Method.GoName m ++ "(" ++ context (ident gen) ++ ", "
                       ++ (if streamingClient m then EmptyString
                           else "*" ++ QualifiedGoIdent (out gen)
                                         (inputIdent m) ++ ", ")
                       ++ ") (" ++ Service.GoName service ++ "_"
                       ++ Method.GoName m ++ "Client, error)"
                else Method.GoName m ++ "(" ++ context (ident gen) ++ ", *"
                       ++ QualifiedGoIdent (out gen) (inputIdent m)
                       ++ ")(*" ++ QualifiedGoIdent (out gen) (outputIdent m)
                       ++ ", error)")
             (Service.Methods service))
          ["}"; EmptyString]))
    text /\
  In ("func New" ++ Service.GoName service ++ "Client(client *"
        ++ client (ident gen) ++ ")" ++ Service.GoName service ++ "Client{")
     text /\
  collect interfaceDecl (genService gen service) =
    [Service.GoName service ++ "Service"; Service.GoName service ++ "Client"].
Proof.
  intros text. subst text.
  destruct (clientInterface_occurs gen service Hstreams) as [Hocc Hfst].
  split; [|split].
  - text_of_block gen
      (P [Str "type "; Str (clientType service); Str " interface{"]
       ++ flat_map (clientInterfaceLine gen service)
            (Service.Methods service)
       ++ P [Str "}"] ++ P [])%list Hocc.
    rewrite !Content_app. f_equal; [unfold clientType; simpl; now str_norm|].
    f_equal. apply Content_flat_map. intros m.
    unfold clientInterfaceLine, isStream.
    destruct (streamingClient m), (streamingServer m);
      simpl; str_norm; reflexivity.
  - pose proof (clientStruct_occurs gen service) as H. rewrite Hfst in H.
    apply (occursIn_incl _ _ _ (occursIn_map (printLine (out gen)) _ _ H)).
    unfold clientStruct, clientType. simpl. str_norm. tauto.
  - rewrite genService_interfaceDecls.
    destruct (streamMethods service); [contradiction | reflexivity].
Qed.

Lemma client_interface_with_streams_witness :
  streamMethods mixedService <> [] /\
  let text := Content sampleFile (genService sampleGen mixedService) in
  occursIn
    ["type StoreClient interface{";
     "Say(context.Context, *EchoRequest)(*EchoResponse, error)";
     "Talk(context.Context, ) (Store_TalkClient, error)";
     "Put(context.Context, ) (Store_PutClient, error)";
     "Get(context.Context, *Req, ) (Store_GetClient, error)";
     "}"; EmptyString]
    text /\
  In "func NewStoreClient(client *ttrpc.Client)StoreClient{" text /\
  collect interfaceDecl (genService sampleGen mixedService) =
    ["StoreService"; "StoreClient"].
Proof.
  assert (H : streamMethods mixedService <> []) by discriminate.
  split; [exact H|].
  apply (client_interface_with_streams sampleGen mixedService H).
Defined.

(** ** Unary client methods *)

(** X5. For a unary method of a service, the generated code contains the
    client method: it takes the context and the request, declares the
    response of the Output type, makes one Call on the transport with the
    fully-qualified service name, the name of the method as written in
    the .proto file, the request and the address of the response, returns
    nil and the error when the call fails, and the address of the response
    and a nil error otherwise. *)
Theorem unary_client_call (gen : generator) (service : Service.t)
    (m : Method.t)
    (Hin : In m (Service.Methods service)) (Hunary : isStream m = false) :
  occursIn
    ["func (c *" ++ clientStructType service ++ ") " ++ Method.GoName m
       ++ "(ctx " ++ context (ident gen) ++ ", req *"
       ++ QualifiedGoIdent (out gen) (inputIdent m) ++ ") (*"
       ++ QualifiedGoIdent (out gen) (outputIdent m) ++ ", error) {";
     "var resp " ++ QualifiedGoIdent (out gen) (outputIdent m);
     "if err := c.client.Call(ctx, " ++ dq
       ++ ServiceDesc.FullName (Service.Desc service) ++ dq ++ ", " ++ dq
       ++ MethodDesc.Name (Method.Desc m) ++ dq
       ++ ", req, &resp); err != nil {";
     "return nil, err";
     "}";
     "return &resp, nil";
     "}";
     EmptyString]
    (Content (out gen) (genService gen service)).
Proof.
  text_of_block gen (clientMethod gen service m)
    (clientMethod_occurs gen service m Hin).
  unfold isStream in Hunary. unfold clientMethod. rewrite Hunary.
  apply orb_false_iff in Hunary as [-> _].
  simpl. str_norm. reflexivity.
Qed.

Lemma unary_client_call_witness :
  In lowerSayMethod (Service.Methods greeterService) /\
  isStream lowerSayMethod = false /\
  occursIn
    ["func (c *greeterClient) Say(ctx context.Context, req *EchoRequest) (*EchoResponse, error) {";
     "var resp EchoResponse";
     "if err := c.client.Call(ctx, " ++ dq ++ "example.Greeter" ++ dq
       ++ ", " ++ dq ++ "say" ++ dq ++ ", req, &resp); err != nil {";
     "return nil, err";
     "}";
     "return &resp, nil";
     "}";
     EmptyString]
    (Content sampleFile (genService sampleGen greeterService)).
Proof.
  assert (Hin : In lowerSayMethod (Service.Methods greeterService))
    by (simpl; tauto).
  assert (Hu : isStream lowerSayMethod = false) by reflexivity.
  split; [exact Hin|]. split; [exact Hu|].
  apply (unary_client_call sampleGen greeterService lowerSayMethod Hin Hu).
Defined.

(** ** Transport calls *)

(** X6. The generated code makes exactly one transport call per method of
    the service: one Call per unary method, in order, with the name of
    the method as written in the .proto file, and one NewStream per
    streaming method, in order, with the quoted Go name of the method.
    The names passed to NewStream are, one by one, the keys of the
    Streams map of the registration function. *)
Theorem transport_calls_per_method (gen : generator) (service : Service.t) :
  let p := genService gen service in
  collect callMethodName p =
    map (fun m => MethodDesc.Name (Method.Desc m)) (unaryMethods service) /\
  collect newStreamMethodArg p =
    map (fun m => quotedArg (Method.GoName m)) (streamMethods service) /\
  collect newStreamMethodArg p = map quotedArg (collect streamKey p) /\
  (List.length (collect callMethodName p)
   + List.length (collect newStreamMethodArg p))%nat
  = List.length (Service.Methods service).
Proof.
  intros p. subst p.
  rewrite genService_callMethodNames, genService_newStreamMethodArgs,
    genService_streamKeys.
  repeat split.
  - now rewrite map_map.
  - rewrite !length_map, <- length_app.
    apply Permutation_length. unfold unaryMethods, streamMethods.
    apply filter_split_perm.
Qed.

(** X7. When every unary method of the service has a Go name equal to
    its name in the .proto file, the method names the unary client
    methods pass to Call are, one by one, the keys of the Methods map of
    the registration function. *)
Theorem unary_call_names_match_keys (gen : generator) (service : Service.t)
    (Hnames :
       Forall (fun m => MethodDesc.Name (Method.Desc m) = Method.GoName m)
         (unaryMethods service)) :
  collect callMethodName (genService gen service) =
  collect methodKey (genService gen service).
Proof.
  rewrite genService_callMethodNames, genService_methodKeys.
  induction Hnames as [|m l Hm _ IH]; simpl; [reflexivity|].
  now rewrite Hm, IH.
Qed.

Lemma unary_call_names_match_keys_witness :
  Forall (fun m => MethodDesc.Name (Method.Desc m) = Method.GoName m)
    (unaryMethods mixedService) /\
  collect callMethodName (genService sampleGen mixedService) =
  collect methodKey (genService sampleGen mixedService).
Proof.
  assert (H : Forall
                (fun m => MethodDesc.Name (Method.Desc m) = Method.GoName m)
                (unaryMethods mixedService))
    by (repeat constructor).
  split; [exact H|].
  apply (unary_call_names_match_keys sampleGen mixedService H).
Defined.

(** ** Stream wrappers, in full *)

Lemma occursIn_tail {A : Type} (a b p : list A) :
  occursIn (a ++ b) p -> occursIn b p.
Proof.
  intros (p1 & q1 & ->). exists (p1 ++ a)%list, q1.
  now rewrite <- !app_assoc.
Qed.

(** X8. For a streaming method of a service, the generated code contains
    the whole server-stream block: the interface named Service_MethodServer
    with Send (when serverStreaming) and Recv (when clientStreaming) and
    the embedded StreamServer; the wrapper struct that embeds the
    StreamServer; a Send that hands the message to SendMsg of the embedded
    stream and returns its error; and a Recv that makes a new message of
    the Input type, receives into it once with RecvMsg and returns nil and
    the error when that fails, the message and a nil error otherwise. *)
Theorem server_stream_block (gen : generator) (service : Service.t)
    (m : Method.t)
    (Hin : In m (Service.Methods service)) (Hstream : isStream m = true) :
  let structName :=
    ToLower (Service.GoName service) ++ Method.GoName m ++ "Server" in
  let input := QualifiedGoIdent (out gen) (inputIdent m) in
  let output := QualifiedGoIdent (out gen) (outputIdent m) in
  occursIn
    (app
       ["type " ++ Service.GoName service ++ "_" ++ Method.GoName m
          ++ "Server interface {"]
    (app (if streamingServer m then ["Send(*" ++ output ++ ") error"] else [])
    (app (if streamingClient m then ["Recv() (*" ++ input ++ ", error)"]
          else [])
    (app
       [streamServer (ident gen);
        "}";
        EmptyString;
        "type " ++ structName ++ " struct {";
        streamServer (ident gen);
        "}";
        EmptyString]
    (app
       (if streamingServer m
        then ["func (x *" ++ structName ++ ") Send(m *" ++ output
                ++ ") error {";
              "return x.StreamServer.SendMsg(m)";
              "}";
              EmptyString]
        else [])
       (if streamingClient m
        then ["func (x *" ++ structName ++ ") Recv() (*" ++ input
                ++ ", error) {";
              "m := new(" ++ input ++ ")";
              "if err := x.StreamServer.RecvMsg(m); err != nil {";
              "return nil, err";
              "}";
              "return m, nil";
              "}";
              EmptyString]
        else []))))))
    (Content (out gen) (genService gen service)).
Proof.
  intros structName input output. subst structName input output.
  text_of_block gen (serverStream gen service m)
    (serverStream_occurs gen service m
       (In_streamMethods service m Hin Hstream)).
  unfold serverStream, serverStructName.
  destruct (streamingClient m), (streamingServer m);
    simpl; str_norm; reflexivity.
Qed.

Lemma server_stream_block_witness :
  In talkMethod (Service.Methods chatService) /\
  isStream talkMethod = true /\
  occursIn
    ["type Chat_TalkServer interface {";
     "Send(*Out) error";
     "Recv() (*In, error)";
     "ttrpc.StreamServer";
     "}";
     EmptyString;
     "type chatTalkServer struct {";
     "ttrpc.StreamServer";
     "}";
     EmptyString;
     "func (x *chatTalkServer) Send(m *Out) error {";
     "return x.StreamServer.SendMsg(m)";
     "}";
     EmptyString;
     "func (x *chatTalkServer) Recv() (*In, error) {";
     "m := new(In)";
     "if err := x.StreamServer.RecvMsg(m); err != nil {";
     "return nil, err";
     "}";
     "return m, nil";
     "}";
     EmptyString]
    (Content sampleFile (genService sampleGen chatService)).
Proof.
  assert (Hin : In talkMethod (Service.Methods chatService))
    by (simpl; tauto).
  assert (Hs : isStream talkMethod = true) by reflexivity.
  split; [exact Hin|]. split; [exact Hs|].
  apply (server_stream_block sampleGen chatService talkMethod Hin Hs).
Defined.

(** X9. For a streaming method of a service, the code printed by the
    generator that newGenerator makes contains the whole client-stream
    block: the interface named Service_MethodClient with Send (when
    clientStreaming), Recv (when serverStreaming) or else CloseAndRecv, and
    the embedded ClientStream; the wrapper struct that embeds the
    ClientStream; a Send that hands the message to SendMsg of the embedded
    ClientStream; a Recv that receives once into a new message of the
    Output type; and, in place of Recv when serverStreaming is false, a
    CloseAndRecv that first calls CloseSend, returns nil and the error
    when that fails, and then receives exactly once into a new message of
    the Output type. *)
Theorem client_stream_block (out : GeneratedFile) (service : Service.t)
    (m : Method.t)
    (Hin : In m (Service.Methods service)) (Hstream : isStream m = true) :
  let structName :=
    ToLower (Service.GoName service) ++ Method.GoName m ++ "Client" in
  let input := QualifiedGoIdent out (inputIdent m) in
  let output := QualifiedGoIdent out (outputIdent m) in
  let clientStream :=
    QualifiedGoIdent out (GoIdent.mk "ClientStream" ttrpcPath) in
  occursIn
    (app
       ["type " ++ Service.GoName service ++ "_" ++ Method.GoName m
          ++ "Client interface {"]
    (app (if streamingClient m then ["Send(*" ++ input ++ ") error"] else [])
    (app
       [if streamingServer m then "Recv() (*" ++ output ++ ", error)"
        else "CloseAndRecv() (*" ++ output ++ ", error)";
        clientStream;
        "}";
        EmptyString;
        "type " ++ structName ++ " struct {";
        clientStream;
        "}";
        EmptyString]
    (app
       (if streamingClient m
        then ["func (x *" ++ structName ++ ") Send(m *" ++ input
                ++ ") error {";
              "return x.ClientStream.SendMsg(m)";
              "}";
              EmptyString]
        else [])
       (if streamingServer m
        then ["func (x *" ++ structName ++ ") Recv() (*" ++ output
                ++ ", error) {";
              "m := new(" ++ output ++ ")";
              "if err := x.ClientStream.RecvMsg(m); err != nil {";
              "return nil, err";
              "}";
              "return m, nil";
              "}";
              EmptyString]
        else ["func (x *" ++ structName ++ ") CloseAndRecv() (*" ++ output
                ++ ", error) {";
              "if err := x.ClientStream.CloseSend(); err != nil {";
              "return nil, err";
              "}";
              "m := new(" ++ output ++ ")";
              "if err := x.ClientStream.RecvMsg(m); err != nil {";
              "return nil, err";
              "}";
              "return m, nil";
              "}";
              EmptyString])))))
    (Content out (genService (newGenerator out) service)).
Proof.
  intros structName input output clientStream.
  subst structName input output clientStream.
  pose proof (occursIn_map (printLine out) _ _
                (clientMethod_occurs (newGenerator out) service m Hin))
    as Hocc.
  fold (Content out (clientMethod (newGenerator out) service m)) in Hocc.
  fold (Content out (genService (newGenerator out) service)) in Hocc.
  unfold isStream in Hstream. unfold clientMethod, clientStructName in Hocc.
  destruct (streamingClient m), (streamingServer m);
    try discriminate Hstream;
    simpl in Hocc; revert Hocc; str_norm;
    match goal with
    | |- occursIn ?l _ -> occursIn ?t _ =>
        change l with (firstn 12 l ++ t)%list
    end;
    apply occursIn_tail.
Qed.

Lemma client_stream_block_witness :
  In putMethod (Service.Methods uploadService) /\
  isStream putMethod = true /\
  occursIn
    ["type Upload_PutClient interface {";
     "Send(*Chunk) error";
     "CloseAndRecv() (*Ack, error)";
     "ttrpc.ClientStream";
     "}";
     EmptyString;
     "type uploadPutClient struct {";
     "ttrpc.ClientStream";
     "}";
     EmptyString;
     "func (x *uploadPutClient) Send(m *Chunk) error {";
     "return x.ClientStream.SendMsg(m)";
     "}";
     EmptyString;
     "func (x *uploadPutClient) CloseAndRecv() (*Ack, error) {";
     "if err := x.ClientStream.CloseSend(); err != nil {";
     "return nil, err";
     "}";
     "m := new(Ack)";
     "if err := x.ClientStream.RecvMsg(m); err != nil {";
     "return nil, err";
     "}";
     "return m, nil";
     "}";
     EmptyString]
    (Content sampleFile (genService (newGenerator sampleFile) uploadService)).
Proof.
  assert (Hin : In putMethod (Service.Methods uploadService))
    by (simpl; tauto).
  assert (Hs : isStream putMethod = true) by reflexivity.
  split; [exact Hin|]. split; [exact Hs|].
  apply (client_stream_block sampleFile uploadService putMethod Hin Hs).
Defined.

(** ** One artifact per method *)

Lemma filter_none_all {A : Type} (f : A -> bool) (l : list A) :
  filter f l = [] -> filter (fun a => negb (f a)) l = l.
Proof.
  induction l as [|a l IH]; simpl; [reflexivity|].
  destruct (f a); simpl; [discriminate|].
  intros H. now rewrite IH.
Qed.

(** X10. The generated code has exactly one client method per method of
    the service, in the order of the service, named by the Go name of the
    method, and every one of them is a method of the client struct, whose
    declaration the generated code contains. *)
Theorem client_methods_per_method (gen : generator) (service : Service.t) :
  collect clientMethodName (genService gen service) =
    map (fun m => (clientStructType service, Method.GoName m))
      (Service.Methods service) /\
  In ("type " ++ clientStructType service ++ " struct{")
     (Content (out gen) (genService gen service)).
Proof.
  split; [apply genService_clientMethodNames|].
  apply (occursIn_incl _ _ _
           (occursIn_map (printLine (out gen)) _ _
              (clientStruct_occurs gen service))).
  unfold clientStruct. simpl. str_norm. tauto.
Qed.

(** X11. The stream interfaces declared in the generated code are, for
    every streaming method in order, one server-stream interface named
    Service_MethodServer and one client-stream interface named
    Service_MethodClient; a unary method gets neither. *)
Theorem stream_interfaces_per_method (gen : generator) (service : Service.t) :
  let p := genService gen service in
  collect serverStreamInterface p =
    map (fun m => Service.GoName service ++ "_" ++ Method.GoName m
                  ++ "Server") (streamMethods service) /\
  collect clientStreamInterface p =
    map (fun m => Service.GoName service ++ "_" ++ Method.GoName m
                  ++ "Client") (streamMethods service) /\
  List.length (collect serverStreamInterface p)
    = List.length (collect streamKey p) /\
  List.length (collect clientStreamInterface p)
    = List.length (collect newStreamMethodArg p).
Proof.
  intros p. subst p.
  rewrite genService_serverStreamInterfaces,
    genService_clientStreamInterfaces, genService_streamKeys,
    genService_newStreamMethodArgs.
  repeat split; now rewrite !length_map.
Qed.

(** X12. Every wrapper struct the generated code builds is one it
    declares: the structs the stream handlers of the registration function
    build over the stream are the server-side wrappers, the structs the
    streaming client methods build are the client-side wrappers, and
    together, in this order, they are exactly the wrapper structs declared
    in the generated code. *)
Theorem wrappers_built_are_declared (gen : generator) (service : Service.t) :
  let p := genService gen service in
  let reg :=
    registerFunc gen service (unaryMethods service) (streamMethods service) in
  occursIn reg p /\
  collect handlerWrapper reg =
    map (fun m => ToLower (Service.GoName service) ++ Method.GoName m
                  ++ "Server") (streamMethods service) /\
  collect clientWrapperUse p =
    map (fun m => ToLower (Service.GoName service) ++ Method.GoName m
                  ++ "Client") (streamMethods service) /\
  collect wrapperStruct p =
    (collect handlerWrapper reg ++ collect clientWrapperUse p)%list.
Proof.
  intros p reg. subst p reg.
  rewrite registerFunc_handlerWrappers, genService_clientWrapperUses,
    genService_wrapperStructs.
  repeat split. apply registerFunc_occurs.
Qed.

(** X13. For a service none of whose methods streams, the generated code
    has no stream code at all: no wrapper struct, no server-stream or
    client-stream interface, no Streams map and no entry of one, no
    NewStream call; every method of the service is served by an entry of
    the Methods map and called with Call. *)
Theorem no_stream_code_without_streams (gen : generator)
    (service : Service.t) (Hnone : streamMethods service = []) :
  let p := genService gen service in
  collect wrapperStruct p = [] /\
  collect serverStreamInterface p = [] /\
  collect clientStreamInterface p = [] /\
  collect streamKey p = [] /\
  collect newStreamMethodArg p = [] /\
  collect mapHeader p =
    (match Service.Methods service with [] => [] | _ => ["Methods"] end) /\
  collect methodKey p = map Method.GoName (Service.Methods service) /\
  collect callMethodName p =
    map (fun m => MethodDesc.Name (Method.Desc m)) (Service.Methods service).
Proof.
  intros p. subst p.
  assert (Hall : unaryMethods service = Service.Methods service).
  { unfold unaryMethods. apply filter_none_all. exact Hnone. }
  rewrite genService_wrapperStructs, genService_serverStreamInterfaces,
    genService_clientStreamInterfaces, genService_streamKeys,
    genService_newStreamMethodArgs, genService_mapHeaders,
    genService_methodKeys, genService_callMethodNames.
  rewrite Hnone, Hall. simpl. rewrite app_nil_r. repeat split.
Qed.

Lemma no_stream_code_without_streams_witness :
  streamMethods echoService = [] /\
  let p := genService sampleGen echoService in
  collect wrapperStruct p = [] /\
  collect serverStreamInterface p = [] /\
  collect clientStreamInterface p = [] /\
  collect streamKey p = [] /\
  collect newStreamMethodArg p = [] /\
  collect mapHeader p = ["Methods"] /\
  collect methodKey p = ["Say"] /\
  collect callMethodName p = ["Say"].
Proof.
  assert (H : streamMethods echoService = []) by reflexivity.
  split; [exact H|].
  apply (no_stream_code_without_streams sampleGen echoService H).
Defined.

(** ** The registration function, in full *)

Lemma Content_flat_map_blocks {A : Type} (out : GeneratedFile)
    (f : A -> list line) (h : A -> list string) (l : list A) :
  (forall a, Content out (f a) = h a) ->
  Content out (flat_map f l) = flat_map h l.
Proof.
  intros H. induction l as [|a l IH]; simpl; [reflexivity|].
  now rewrite Content_app, H, IH.
Qed.

(** X15. The generated code contains the registration function in full:
    the function Register followed by the service-interface name, taking
    the transport server and a value of the service interface; one
    RegisterService call with the fully-qualified service name and a
    service description; inside it, when the service has unary methods,
    the Methods map with the entries of all unary methods in order and
    only those, then, when the service has streaming methods, the Streams
    map with the entries of all streaming methods in order and only
    those; then the closing of the call and of the function. *)
Theorem registration_function_text (gen : generator) (service : Service.t) :
  let serviceName := Service.GoName service ++ "Service" in
  let methodText := fun m =>
    [dq ++ Method.GoName m ++ dq ++ ": func(ctx " ++ context (ident gen)
       ++ ", unmarshal func(interface{}) error)(interface{}, error){";
     "var req " ++ QualifiedGoIdent (out gen) (inputIdent m);
     "if err := unmarshal(&req); err != nil {";
     "return nil, err";
     "}";
     "return svc." ++ Method.GoName m ++ "(ctx, &req)";
     "},"] in
  let streamText := fun m =>
    app
      [dq ++ Method.GoName m ++ dq ++ ": {";
       "Handler: func(ctx " ++ context (ident gen) ++ ", stream "
         ++ streamServer (ident gen) ++ ") (interface{}, error) {"]
      (app
         (if streamingClient m then []
          else ["m := new(" ++ QualifiedGoIdent (out gen) (inputIdent m)
                  ++ ")";
                "if err := stream.RecvMsg(m); err != nil {";
                "return nil, err";
                "}"])
         [(if streamingServer m then "return nil, svc." else "return svc.")
            ++ Method.GoName m ++ "(ctx, "
            ++ (if streamingClient m then EmptyString else "m, ")
            ++ "&" ++ ToLower (Service.GoName service) ++ Method.GoName m
            ++ "Server" ++ "{stream})";
          "},";
          "StreamingClient: " ++ goBool (streamingClient m) ++ ",";
          "StreamingServer: " ++ goBool (streamingServer m) ++ ",";
          "},"]) in
  occursIn
    (app
       ["func Register" ++ serviceName ++ "(srv *" ++ server (ident gen)
          ++ ", svc " ++ serviceName ++ "){";
        "srv.RegisterService(" ++ dq
          ++ ServiceDesc.FullName (Service.Desc service) ++ dq ++ ", &"
          ++ serviceDesc (ident gen) ++ "{"]
    (app
       (match unaryMethods service with
        | [] => []
        | _ =>
            app ["Methods: map[string]" ++ method (ident gen) ++ "{"]
              (app (flat_map methodText (unaryMethods service)) ["},"])
        end)
    (app
       (match streamMethods service with
        | [] => []
        | _ =>
            app ["Streams: map[string]" ++ stream (ident gen) ++ "{"]
              (app (flat_map streamText (streamMethods service)) ["},"])
        end)
       ["})"; "}"; EmptyString])))
    (Content (out gen) (genService gen service)).
Proof.
  intros serviceName methodText streamText.
  text_of_block gen
    (registerFunc gen service (unaryMethods service) (streamMethods service))
    (registerFunc_occurs gen service).
  assert (Hm : forall m, Content (out gen) (methodEntry gen m) = methodText m).
  { intros m. subst methodText. simpl. str_norm. reflexivity. }
  assert (Hs : forall m,
             Content (out gen) (streamEntry gen service m) = streamText m).
  { intros m. subst streamText. unfold streamEntry, serverStructName.
    destruct (streamingClient m), (streamingServer m);
      simpl; str_norm; reflexivity. }
  subst serviceName. unfold registerFunc. rewrite !Content_app.
  pose proof (Content_flat_map_blocks _ _ _ (unaryMethods service) Hm) as HM.
  pose proof (Content_flat_map_blocks _ _ _ (streamMethods service) Hs) as HS.
  unfold Content in HM, HS.
  cbn [Content P map app].
  apply (f_equal2 cons); [simpl; str_norm; reflexivity|].
  apply (f_equal2 cons); [simpl; str_norm; reflexivity|].
  apply (f_equal2 (@app string)).
  { clear HS. destruct (unaryMethods service) as [|m0 ms]; [reflexivity|].
    cbn [List.length Nat.ltb Nat.leb Content map].
    apply (f_equal2 cons); [simpl; str_norm; reflexivity|].
    now rewrite map_app, HM. }
  apply (f_equal2 (@app string)); [|reflexivity].
  clear HM. destruct (streamMethods service) as [|m0 ms]; [reflexivity|].
  cbn [List.length Nat.ltb Nat.leb Content map].
  apply (f_equal2 cons); [simpl; str_norm; reflexivity|].
  now rewrite map_app, HS.
Qed.
